(** * MCP client connection and tool-invocation layer

    A shallow embedding of [client.py] (ServerConnection, Tool),
    [mcp_tools.py] (function adapter layer), [mcp_direct.py] (direct
    executor), the tool functions of [agent.py] and the direct-execution
    call site of [bots/state_management_bot.py].

    Conventions of the embedding:
    - Python values are the inductive [pyvalue]; a dict is an association
      list in insertion order.
    - [async] code runs sequentially, one coroutine at a time: an [await]
      is a monadic bind in [M], a state-and-exception monad in which the
      state survives a raised exception, as object mutations do in Python.
    - The remote MCP server and the transport are a [Server] script; what
      the client does to them is appended to a [trace] of events.
    - Delays are exact rationals ([Q]): floating-point rounding of
      [retry_delay * 2 ** (attempt - 1)] is not modelled, the
      [OverflowError] of converting [2 ** 1024] or more to float is.
    - Logging calls have no effect on the modelled state and are left out. *)

From Stdlib Require Import ZArith QArith Lia List String Ascii Bool.
From Equations Require Import Equations.
Import ListNotations.

Set Warnings "-register-all".

Open Scope list_scope.
Open Scope Z_scope.
Open Scope string_scope.

(* ===================================================================== *)
(** ** Python values *)
(* ===================================================================== *)

Inductive pyvalue : Type :=
| PyNone
| PyBool (b : bool)
| PyInt (n : Z)
| PyFloat (q : Q)
| PyStr (s : string)
| PyList (l : list pyvalue)
| PyDict (d : list (string * pyvalue)).

Definition dict : Type := list (string * pyvalue).

(** [d.get(k)] *)
Fixpoint dict_get (k : string) (d : dict) : option pyvalue :=
  match d with
  | [] => None
  | (k', v) :: d' => if String.eqb k' k then Some v else dict_get k d'
  end.

(** [k in d] *)
Definition dict_contains (k : string) (d : dict) : bool :=
  match dict_get k d with Some _ => true | None => false end.

(** the dict without key [k] *)
Fixpoint dict_remove (k : string) (d : dict) : dict :=
  match d with
  | [] => []
  | (k', v) :: d' =>
      if String.eqb k' k then dict_remove k d' else (k', v) :: dict_remove k d'
  end.

(** [d[k] = v]: replaces in place, or appends a new key at the end. *)
Fixpoint dict_set (k : string) (v : pyvalue) (d : dict) : dict :=
  match d with
  | [] => [(k, v)]
  | (k', v') :: d' =>
      if String.eqb k' k then (k, v) :: d' else (k', v') :: dict_set k v d'
  end.

(** [isinstance(v, cls)]; [bool] is a subclass of [int] in Python. *)
Definition isinstance_str (v : pyvalue) : bool :=
  match v with PyStr _ => true | _ => false end.
Definition isinstance_bool (v : pyvalue) : bool :=
  match v with PyBool _ => true | _ => false end.
Definition isinstance_int (v : pyvalue) : bool :=
  match v with PyInt _ | PyBool _ => true | _ => false end.
Definition isinstance_float (v : pyvalue) : bool :=
  match v with PyFloat _ => true | _ => false end.
Definition isinstance_list (v : pyvalue) : bool :=
  match v with PyList _ => true | _ => false end.
Definition isinstance_dict (v : pyvalue) : bool :=
  match v with PyDict _ => true | _ => false end.

(** [v == s] for an optional value [v] and a string literal [s]. *)
Definition eq_str (v : option pyvalue) (s : string) : bool :=
  match v with
  | Some (PyStr s') => String.eqb s' s
  | _ => false
  end.

(* ===================================================================== *)
(** ** Exceptions and the state-and-exception monad *)
(* ===================================================================== *)

(** Subclasses of [Exception] that the code raises or can receive.
    The cancellation of [_connect] by an expired [asyncio.wait_for] (a
    [BaseException], which [except Exception] does not catch) is the
    value [Cancelled] below, not an exception of this type. *)
Inductive exn_class : Type :=
| PyException      (* Exception(...) itself *)
| RuntimeError
| ValueError
| TypeError
| AttributeError
| TimeoutError
| ConnectionError
| OverflowError
| UnboundLocalError.

(** An exception instance: class, message [str(e)], and [__cause__]. *)
Inductive exn : Type :=
| Exn (cls : exn_class) (msg : string) (cause : option exn).

Definition exn_str (e : exn) : string := let 'Exn _ m _ := e in m.
Definition exn_cause (e : exn) : option exn := let 'Exn _ _ c := e in c.

Inductive Outcome (A : Type) : Type :=
| Return (a : A)
| Raise (e : exn).
Arguments Return {A} a.
Arguments Raise {A} e.

Definition M (S A : Type) : Type := S -> Outcome A * S.

Definition ret {S A} (a : A) : M S A := fun s => (Return a, s).

Definition raise {S A} (e : exn) : M S A := fun s => (Raise e, s).

Definition bind {S A B} (c : M S A) (k : A -> M S B) : M S B :=
  fun s =>
    match c s with
    | (Return a, s') => k a s'
    | (Raise e, s') => (Raise e, s')
    end.

(** [try: c  except Exception as e: h e] *)
Definition try_except {S A} (c : M S A) (h : exn -> M S A) : M S A :=
  fun s =>
    match c s with
    | (Return a, s') => (Return a, s')
    | (Raise e, s') => h e s'
    end.

Declare Scope monad_scope.
Delimit Scope monad_scope with monad.
Notation "x <- c1 ;; c2" := (bind c1 (fun x => c2))
  (at level 61, c1 at next level, right associativity) : monad_scope.
Notation "c1 ;; c2" := (bind c1 (fun _ => c2))
  (at level 61, right associativity) : monad_scope.
Open Scope monad_scope.

(* ===================================================================== *)
(** ** The remote server, the transport and the process state *)
(* ===================================================================== *)

(** A tool as the MCP session reports it ([tool.name], [tool.description],
    [tool.inputSchema]). *)
Record RemoteTool : Type := {
  tool_name : string;
  tool_description : pyvalue;
  tool_inputSchema : pyvalue
}.

(** One element of [result.content]; only text content has a [.text]. *)
Inductive Content : Type :=
| TextContent (text : string)
| NonTextContent.

Record CallToolResult : Type := { content : list Content }.

(** One await of [_connect] under [asyncio.wait_for]: it completes, it
    raises, or it is still pending when the timeout expires. *)
Inductive Step : Type :=
| Done
| Fails (e : exn)
| Pending.

(** How one connection attempt goes: the three awaits of [_connect], and
    for each entered context manager whether it releases cleanly
    ([None]) or raises when it is exited. *)
Record Handshake : Type := {
  sse_client_enter : Step;
  sse_client_exit : option exn;
  client_session_enter : Step;
  client_session_exit : option exn;
  session_initialize : Step
}.

(** The three awaits of [_connect] all complete. *)
Definition handshake_ok (h : Handshake) : bool :=
  match sse_client_enter h, client_session_enter h, session_initialize h with
  | Done, Done, Done => true
  | _, _, _ => false
  end.

(** How a coroutine run under [asyncio.wait_for] ends when it does not
    raise an [Exception]: it completes, or it is cancelled at the await
    that was pending at the deadline. *)
Inductive Completion : Type :=
| Completed
| Cancelled.

(** The environment: the n-th connection attempt, the n-th tool listing
    request and the n-th tool call (counted from 0 over the whole run). *)
Record Server : Type := {
  handshake : nat -> Handshake;
  list_tools_response : nat -> Outcome (list RemoteTool);
  call_tool_response : nat -> string -> pyvalue -> Outcome (option CallToolResult)
}.

Inductive Event : Type :=
| EvConnect
| EvListTools
| EvCallTool (tool : string) (arguments : pyvalue)
| EvSleep (delay : Q).

Definition is_connect (ev : Event) : bool :=
  match ev with EvConnect => true | _ => false end.
Definition is_list_tools (ev : Event) : bool :=
  match ev with EvListTools => true | _ => false end.
Definition is_call_tool (ev : Event) : bool :=
  match ev with EvCallTool _ _ => true | _ => false end.
Definition is_sleep (ev : Event) : bool :=
  match ev with EvSleep _ => true | _ => false end.

Definition count (p : Event -> bool) (tr : list Event) : nat :=
  List.length (filter p tr).

(** Process-wide state: what has been done to the environment so far and
    the function attribute [create_mcp_functions.mcp_tool_names]. *)
Record World : Type := {
  trace : list Event;
  mcp_tool_names : list string
}.

(** Module import: line 128 of mcp_tools.py sets the registry to []. *)
Definition initial_world : World := {| trace := []; mcp_tool_names := [] |}.

(** The dict built by [list_tools] for each tool. *)
Record ToolEntry : Type := {
  name : string;
  description : pyvalue;
  input_schema : pyvalue
}.

(** The session handle; it remembers which connection attempt made it. *)
Record ClientSession : Type := { session_no : nat }.

(** A context manager pushed on the [AsyncExitStack]. *)
Record Resource : Type := { resource_exit : option exn }.

Record ServerConnection : Type := {
  server_url : string;
  session : option ClientSession;
  exit_stack : list Resource;        (* most recently entered first *)
  _tools_cache : option (list ToolEntry);
  connected : bool
}.

(** [ServerConnection.__init__] *)
Definition ServerConnection_init (url : string) : ServerConnection :=
  {| server_url := url;
     session := None;
     exit_stack := [];
     _tools_cache := None;
     connected := false |}.

(** State of a coroutine that works on one connection object. *)
Record ConnState : Type := {
  world : World;
  self : ServerConnection
}.

(** The state after the events [evs] have happened. *)
Definition add_events (evs : list Event) (st : ConnState) : ConnState :=
  {| world := {| trace := trace (world st) ++ evs;
                 mcp_tool_names := mcp_tool_names (world st) |};
     self := self st |}.

Definition emit (ev : Event) : M ConnState unit :=
  fun st => (Return tt, add_events [ev] st).

Definition get_self : M ConnState ServerConnection :=
  fun st => (Return (self st), st).

Definition get_trace : M ConnState (list Event) :=
  fun st => (Return (trace (world st)), st).

Definition modify_self (f : ServerConnection -> ServerConnection)
  : M ConnState unit :=
  fun st => (Return tt, {| world := world st; self := f (self st) |}).

Definition set_session (s : option ClientSession) (c : ServerConnection) :=
  {| server_url := server_url c; session := s; exit_stack := exit_stack c;
     _tools_cache := _tools_cache c; connected := connected c |}.
Definition set_exit_stack (r : list Resource) (c : ServerConnection) :=
  {| server_url := server_url c; session := session c; exit_stack := r;
     _tools_cache := _tools_cache c; connected := connected c |}.
Definition set_tools_cache (t : option (list ToolEntry)) (c : ServerConnection) :=
  {| server_url := server_url c; session := session c;
     exit_stack := exit_stack c; _tools_cache := t; connected := connected c |}.
Definition set_connected (b : bool) (c : ServerConnection) :=
  {| server_url := server_url c; session := session c;
     exit_stack := exit_stack c; _tools_cache := _tools_cache c;
     connected := b |}.

(** Lift an outcome of the environment into the monad. *)
Definition lift {S A} (o : Outcome A) : M S A := fun s => (o, s).

(* ===================================================================== *)
(** ** client.py: ServerConnection *)
(* ===================================================================== *)

(** [AsyncExitStack.aclose] pops every callback, most recent first; an
    exception raised by an exit replaces the pending one and the last
    pending exception is raised once the stack is empty. *)
Fixpoint run_exit_callbacks (stack : list Resource) (pending : option exn)
  : option exn :=
  match stack with
  | [] => pending
  | r :: stack' =>
      run_exit_callbacks stack'
        (match resource_exit r with Some e => Some e | None => pending end)
  end.

Definition aclose : M ConnState unit :=
  c <- get_self ;;
  modify_self (set_exit_stack []) ;;
  match run_exit_callbacks (exit_stack c) None with
  | Some e => raise e
  | None => ret tt
  end.

(** [ServerConnection.cleanup] (the lock is uncontended in sequential use). *)
Definition cleanup : M ConnState unit :=
  try_except
    (aclose ;;
     modify_self (set_session None) ;;
     modify_self (set_tools_cache None) ;;
     modify_self (set_connected false) ;;
     ret tt)
    (fun e => ret tt).

(** [await x ; rest] inside [_connect]: the await completes and [rest]
    runs, or it raises, or the coroutine is cancelled there. *)
Definition await (x : Step) (rest : M ConnState Completion)
  : M ConnState Completion :=
  match x with
  | Done => rest
  | Fails e => raise e
  | Pending => ret Cancelled
  end.

(** [await self.exit_stack.enter_async_context(cm) ; rest]: the context
    manager is on the exit stack once it has been entered. *)
Definition enter_async_context (enter : Step) (exit : option exn)
    (rest : M ConnState Completion) : M ConnState Completion :=
  await enter
    (modify_self
       (fun c => set_exit_stack ({| resource_exit := exit |} :: exit_stack c) c) ;;
     rest).

(** [await asyncio.wait_for(task, timeout)]: a task cancelled at the
    deadline gives [TimeoutError]. *)
Definition wait_for (task : M ConnState Completion) : M ConnState unit :=
  r <- task ;;
  match r with
  | Completed => ret tt
  | Cancelled => raise (Exn TimeoutError EmptyString None)
  end.

Section Client.

Variable srv : Server.
Variable json_loads : string -> option pyvalue.   (* None: JSONDecodeError *)

(** [ServerConnection._connect]; its handler catches an [Exception],
    not the cancellation. *)
Definition _connect : M ConnState Completion :=
  try_except
    (tr <- get_trace ;;
     let n := count is_connect tr in
     let h := handshake srv n in
     emit EvConnect ;;
     enter_async_context (sse_client_enter h) (sse_client_exit h)
       (enter_async_context (client_session_enter h) (client_session_exit h)
          (await (session_initialize h)
             (modify_self (set_session (Some {| session_no := n |})) ;;
              ret Completed))))
    (fun e => cleanup ;; raise e).

(** [ServerConnection.connect]; the handlers of [asyncio.TimeoutError]
    and of [Exception] do the same. *)
Definition connect : M ConnState bool :=
  try_except
    (wait_for _connect ;;
     modify_self (set_connected true) ;;
     ret true)
    (fun e => cleanup ;; ret false).

(** [await self.session.list_tools()] *)
Definition session_list_tools : M ConnState (list RemoteTool) :=
  tr <- get_trace ;;
  emit EvListTools ;;
  lift (list_tools_response srv (count is_list_tools tr)).

Definition tool_entry (tool : RemoteTool) : ToolEntry :=
  {| name := tool_name tool;
     description := tool_description tool;
     input_schema := tool_inputSchema tool |}.

(** [ServerConnection.list_tools] *)
Definition list_tools : M ConnState (list ToolEntry) :=
  c <- get_self ;;
  match session c with
  | None => raise (Exn RuntimeError "Not connected to MCP server" None)
  | Some _ =>
      match _tools_cache c with
      | None =>
          tools <- session_list_tools ;;
          let cache := map tool_entry tools in
          modify_self (set_tools_cache (Some cache)) ;;
          ret cache
      | Some cache => ret cache
      end
  end.

(** [await self.session.call_tool(tool_name, arguments)] *)
Definition session_call_tool (tool_name : string) (arguments : pyvalue)
  : M ConnState (option CallToolResult) :=
  tr <- get_trace ;;
  emit (EvCallTool tool_name arguments) ;;
  lift (call_tool_response srv (count is_call_tool tr) tool_name arguments).

(** [result.content[0].text] *)
Definition first_text (c : Content) : Outcome string :=
  match c with
  | TextContent text => Return text
  | NonTextContent =>
      Raise (Exn AttributeError "object has no attribute 'text'" None)
  end.

(** Lines 249-255: what the [try] block makes of the value of
    [call_tool]. *)
Definition result_value (result : option CallToolResult) : Outcome pyvalue :=
  match result with
  | Some {| content := c0 :: _ |} =>
      match first_text c0 with
      | Return text =>
          match json_loads text with
          | Some v => Return v
          | None => Return (PyDict [("text", PyStr text)])
          end
      | Raise e => Raise e
      end
  | _ => Return (PyDict [("error", PyStr "No content received from tool")])
  end.

(** Body of the [try] block of one loop iteration (lines 244-255). *)
Definition call_once (tool_name : string) (arguments : pyvalue)
  : M ConnState pyvalue :=
  result <- session_call_tool tool_name arguments ;;
  lift (result_value result).

(** What the [try] block of the attempt that makes the [n]-th tool call of
    the run comes to: the value it returns or the exception it raises. *)
Definition attempt_result (n : nat) (tool_name : string) (arguments : pyvalue)
  : Outcome pyvalue :=
  match call_tool_response srv n tool_name arguments with
  | Return result => result_value result
  | Raise e => Raise e
  end.

(** [retry_delay * (2 ** (attempt - 1))] for a float [retry_delay]: the
    int [2 ** (attempt - 1)] is converted to float first, which raises
    [OverflowError] from [2 ** 1024] on. *)
Definition backoff (retry_delay : Q) (attempt : Z) : Outcome Q :=
  if (1024 <=? attempt - 1)%Z
  then Raise (Exn OverflowError "int too large to convert to float" None)
  else Return (retry_delay * inject_Z (2 ^ (attempt - 1)))%Q.

Definition execution_failed (tool_name : string) (e : exn) : exn :=
  Exn PyException
      ("Failed to execute tool '" ++ tool_name ++ "': " ++ exn_str e)
      (Some e).

(** The [while attempt <= retries] loop (lines 242-272); falling out of
    the loop returns [None]. *)
Equations? retry_loop (tool_name : string) (arguments : pyvalue)
    (retries : Z) (retry_delay : Q) (attempt : Z)
  : M ConnState pyvalue by wf (Z.to_nat (retries + 1 - attempt)) lt :=
  retry_loop tool_name arguments retries retry_delay attempt
    with Z_le_dec attempt retries := {
    | left _ =>
        try_except
          (call_once tool_name arguments)
          (fun e =>
             let attempt := attempt + 1 in
             if (attempt <=? retries)%Z then
               delay <- lift (backoff retry_delay attempt) ;;
               emit (EvSleep delay) ;;
               retry_loop tool_name arguments retries retry_delay attempt
             else
               raise (execution_failed tool_name e))
    | right _ => ret PyNone }.
Proof. lia. Qed.

(** [ServerConnection.execute_tool] *)
Definition execute_tool (tool_name : string) (arguments : pyvalue)
    (retries : Z) (retry_delay : Q) : M ConnState pyvalue :=
  c <- get_self ;;
  match session c with
  | None => raise (Exn RuntimeError "Not connected to MCP server" None)
  | Some _ =>
      tools <- list_tools ;;
      if negb (existsb (fun tool => String.eqb (name tool) tool_name) tools)
      then raise (Exn ValueError
                    ("Tool '" ++ tool_name ++ "' not found on MCP server") None)
      else retry_loop tool_name arguments retries retry_delay 0
  end.

End Client.

(** The events of [n] failed attempts that are each followed by a retry,
    the first of them being retry number [k]: retry [k] is preceded by a
    sleep of [retry_delay * 2^(k-1)]. *)
Fixpoint expected_retries (tool_name : string) (arguments : pyvalue)
    (retry_delay : Q) (k n : nat) : list Event :=
  match n with
  | O => []
  | S n' =>
      EvCallTool tool_name arguments
      :: EvSleep (retry_delay * inject_Z (2 ^ (Z.of_nat k - 1)))%Q
      :: expected_retries tool_name arguments retry_delay (S k) n'
  end.

(** The delays slept, in order. *)
Fixpoint sleeps (tr : list Event) : list Q :=
  match tr with
  | [] => []
  | EvSleep d :: tr' => d :: sleeps tr'
  | _ :: tr' => sleeps tr'
  end.

(* ===================================================================== *)
(** ** client.py: Tool *)
(* ===================================================================== *)

Module Tool.

(** A [Tool] object. [_required_params] is
    [input_schema.get("required", [])] and [_properties] is
    [input_schema.get("properties", {})], as [__init__] stores them. *)
Record t : Type := {
  name : string;
  description : string;
  input_schema : dict;
  _required_params : list string;
  _properties : list (string * dict)
}.

Definition required_params (self : t) : list string := _required_params self.
Definition parameters (self : t) : list (string * dict) := _properties self.

(** [self._properties[param_name]], when [param_name in self._properties] *)
Fixpoint properties_get (k : string) (props : list (string * dict))
  : option dict :=
  match props with
  | [] => None
  | (k', v) :: props' => if String.eqb k' k then Some v else properties_get k props'
  end.

(** First loop of [validate_arguments] (lines 335-337). *)
Fixpoint check_required (required : list string) (arguments : dict)
  : option string :=
  match required with
  | [] => None
  | param :: required' =>
      if negb (dict_contains param arguments)
      then Some ("Required parameter '" ++ param ++ "' is missing")
      else check_required required' arguments
  end.

(** The if/elif chain of lines 346-359 for one argument. *)
Definition check_type (param_type : option pyvalue) (param_name : string)
    (param_value : pyvalue) : option string :=
  if eq_str param_type "string" && negb (isinstance_str param_value)
  then Some ("Parameter '" ++ param_name ++ "' should be a string")
  else if eq_str param_type "number"
          && negb (isinstance_int param_value || isinstance_float param_value)
  then Some ("Parameter '" ++ param_name ++ "' should be a number")
  else if eq_str param_type "integer" && negb (isinstance_int param_value)
  then Some ("Parameter '" ++ param_name ++ "' should be an integer")
  else if eq_str param_type "boolean" && negb (isinstance_bool param_value)
  then Some ("Parameter '" ++ param_name ++ "' should be a boolean")
  else if eq_str param_type "array" && negb (isinstance_list param_value)
  then Some ("Parameter '" ++ param_name ++ "' should be an array")
  else if eq_str param_type "object" && negb (isinstance_dict param_value)
  then Some ("Parameter '" ++ param_name ++ "' should be an object")
  else None.

(** The runtime check that the chain applies for each of the six type
    tags, and the wording of the failure; any other tag is not checked.
    These two tables restate the chain for use in statements
    ([check_type_table] relates them to [check_type]). *)
Definition shape_matches (tag : string) (v : pyvalue) : bool :=
  if String.eqb tag "string" then isinstance_str v
  else if String.eqb tag "number" then isinstance_int v || isinstance_float v
  else if String.eqb tag "integer" then isinstance_int v
  else if String.eqb tag "boolean" then isinstance_bool v
  else if String.eqb tag "array" then isinstance_list v
  else if String.eqb tag "object" then isinstance_dict v
  else true.

Definition expected_kind (tag : string) : string :=
  if String.eqb tag "string" then "a string"
  else if String.eqb tag "number" then "a number"
  else if String.eqb tag "integer" then "an integer"
  else if String.eqb tag "boolean" then "a boolean"
  else if String.eqb tag "array" then "an array"
  else if String.eqb tag "object" then "an object"
  else EmptyString.

(** Body of the second loop for one item of [arguments.items()]. *)
Definition check_param (props : list (string * dict)) (param_name : string)
    (param_value : pyvalue) : option string :=
  match properties_get param_name props with
  | Some param_schema =>
      check_type (dict_get "type" param_schema) param_name param_value
  | None => None
  end.

(** Second loop of [validate_arguments] (lines 340-359). *)
Fixpoint check_types (props : list (string * dict)) (items : dict)
  : option string :=
  match items with
  | [] => None
  | (param_name, param_value) :: items' =>
      match check_param props param_name param_value with
      | Some msg => Some msg
      | None => check_types props items'
      end
  end.

(** [Tool.validate_arguments]: the pair [(is_valid, error_message)]. *)
Definition validate_arguments (self : t) (arguments : dict)
  : bool * option string :=
  match check_required (required_params self) arguments with
  | Some msg => (false, Some msg)
  | None =>
      match check_types (_properties self) arguments with
      | Some msg => (false, Some msg)
      | None => (true, None)
      end
  end.

End Tool.

(* ===================================================================== *)
(** ** mcp_tools.py and mcp_direct.py *)
(* ===================================================================== *)

(** Run a coroutine that creates its own connection object
    ([conn = ServerConnection(config.mcp_server_url)]) to completion. *)
Definition with_new_connection {A} (url : string) (body : M ConnState A)
  : M World A :=
  fun w =>
    let (o, st) := body {| world := w; self := ServerConnection_init url |} in
    (o, world st).

Section Adapters.

Variable srv : Server.
Variable json_loads : string -> option pyvalue.   (* None: JSONDecodeError *)
Variable json_dumps : pyvalue -> string.
Variable py_str : pyvalue -> string.              (* str(x) *)
Variable mcp_server_url : string.                 (* config.mcp_server_url *)

(** [tool_func], lines 65-91: the value of [args_to_use] for a call
    [tool_func(kwargs, **args)]; an omitted [kwargs] is [None]. *)
Definition tool_func_args (kwargs : pyvalue) (args : dict) : pyvalue :=
  let args_to_use :=
    match kwargs with
    | PyStr s =>
        if String.eqb s EmptyString then PyDict []
        else match json_loads s with
             | Some v => v
             | None => PyDict [("value", PyStr s)]
             end
    | PyNone => PyDict args
    | _ => kwargs
    end in
  match args_to_use with
  | PyDict d =>
      match dict_get "kwargs" d with
      | Some (PyStr s) =>
          if String.eqb s EmptyString then PyDict []
          else match json_loads s with
               | Some v => v
               | None => args_to_use
               end
      | _ => args_to_use
      end
  | _ => args_to_use
  end.

(** [call_tool], lines 95-103 *)
Definition call_tool (name : string) (args_to_use : pyvalue) : M World pyvalue :=
  with_new_connection mcp_server_url
    (connect srv ;;
     result <- execute_tool srv json_loads name args_to_use 3 1 ;;
     cleanup ;;
     if isinstance_dict result then ret (PyStr (json_dumps result))
     else ret result).

(** The adapter made by [make_func(name)]. *)
Definition tool_func (name : string) (kwargs : pyvalue) (args : dict)
  : M World pyvalue :=
  call_tool name (tool_func_args kwargs args).

(** Python's keyword call of an adapter with the bundle unpacked into
    keyword arguments (double-star unpacking), as the agent SDK's
    function tool invokes registered functions: the entry named [kwargs]
    binds the first parameter, the others are collected in [args]. *)
Definition call_with_keywords {A} (f : pyvalue -> dict -> A) (bundle : dict) : A :=
  f (match dict_get "kwargs" bundle with Some v => v | None => PyNone end)
    (dict_remove "kwargs" bundle).

(** [fetch_tools], lines 30-35 *)
Definition fetch_tools : M World (list ToolEntry) :=
  with_new_connection mcp_server_url
    (connect srv ;;
     tools <- list_tools srv ;;
     cleanup ;;
     ret tools).

Definition set_mcp_tool_names (names : list string) : M World unit :=
  fun w => (Return tt, {| trace := trace w; mcp_tool_names := names |}).

(** [create_mcp_functions]: the result lists the adapters by the tool name
    each one is bound to ([tool_func name]). *)
Definition create_mcp_functions : M World (list string) :=
  set_mcp_tool_names [] ;;
  tools <- try_except
             (tools <- fetch_tools ;;
              set_mcp_tool_names (map name tools) ;;
              ret tools)
             (fun e => ret []) ;;
  ret (map name tools).

(** [is_mcp_function] *)
Definition is_mcp_function (name : string) (w : World) : bool :=
  existsb (String.eqb name) (mcp_tool_names w).

(** [execute_mcp_tool_directly], lines 37-53: the value of [args_to_use] *)
Definition direct_args (arguments : pyvalue) : pyvalue :=
  match arguments with
  | PyDict d =>
      match dict_get "kwargs" d with
      | Some (PyStr s) =>
          if String.eqb s EmptyString then PyDict []
          else match json_loads s with
               | Some v => v
               | None => PyDict [("value", PyStr s)]
               end
      | Some v => v
      | None => arguments
      end
  | _ => PyDict []
  end.

(** [execute_mcp_tool_directly] *)
Definition execute_mcp_tool_directly (function_name : string)
    (arguments : pyvalue) : M World pyvalue :=
  let args_to_use := direct_args arguments in
  with_new_connection mcp_server_url
    (connect srv ;;
     result <- execute_tool srv json_loads function_name args_to_use 3 1 ;;
     cleanup ;;
     ret result).

(** [execute_mcp_tool_async] *)
Definition execute_mcp_tool_async (function_name : string)
    (arguments : pyvalue) : M World string :=
  result <- execute_mcp_tool_directly function_name arguments ;;
  if isinstance_dict result then ret (json_dumps result)
  else ret (py_str result).

(** bots/state_management_bot.py, lines 193-213: the branch of
    [on_message_activity] taken when [is_mcp_function(function_name)];
    its value is [output]. The handler reads [traceback] (line 212), a
    local name of [on_message_activity] that only the import at line 220
    binds: [traceback_bound] tells whether an earlier tool call of the
    same turn has reached that import. *)
Definition on_message_activity_direct (traceback_bound : bool)
    (function_name : string) (arguments : dict) : M World string :=
  let arguments :=
    if String.eqb function_name "upload_blob"
       && negb (dict_contains "content" arguments)
    then match dict_get "text" arguments with
         | Some v => dict_set "content" v arguments
         | None =>
             match dict_get "value" arguments with
             | Some v => dict_set "content" v arguments
             | None => arguments
             end
         end
    else arguments in
  try_except
    (execute_mcp_tool_async function_name (PyDict arguments))
    (fun direct_error =>
       if traceback_bound then
         ret (json_dumps
                (PyDict [("error",
                          PyStr ("Failed to execute " ++ function_name ++ ": "
                                 ++ exn_str direct_error))]))
       else
         raise (Exn UnboundLocalError
                  "cannot access local variable 'traceback' where it is not associated with a value"
                  None)).

End Adapters.

(* ===================================================================== *)
(** ** agent.py *)
(* ===================================================================== *)

Module Agent.

(** [functions_dict[k] = ...] on the keys alone: a key that is already
    present keeps its place. *)
Definition add_key (keys : list string) (k : string) : list string :=
  if existsb (String.eqb k) keys then keys else (keys ++ [k])%list.

Section CreateAgent.

Variable srv : Server.
Variable json_loads : string -> option pyvalue.
Variable mcp_server_url : string.                 (* config.mcp_server_url *)

(** [fetch_tools], lines 32-37 *)
Definition fetch_tools : M World (list ToolEntry) :=
  with_new_connection mcp_server_url
    (connect srv ;;
     tools <- list_tools srv ;;
     cleanup ;;
     ret tools).

(** The function made by [make_tool_func(tool_name)], lines 45-55. *)
Definition tool_func (tool_name : string) (kwargs : dict) : M World pyvalue :=
  with_new_connection mcp_server_url
    (connect srv ;;
     result <- execute_tool srv json_loads tool_name (PyDict kwargs) 3 1 ;;
     cleanup ;;
     ret result).

(** [create_agent], lines 39-58: the keys of [functions_dict], in order;
    the function stored under a key is [tool_func key]. *)
Definition functions_dict : M World (list string) :=
  tools <- fetch_tools ;;
  ret (fold_left add_key (map name tools) []).

End CreateAgent.

End Agent.

(** The sum of a list of delays. *)
Fixpoint total (delays : list Q) : Q :=
  match delays with
  | [] => 0%Q
  | d :: delays' => (d + total delays')%Q
  end.

(* ===================================================================== *)
(** ** Test doubles: a JSON decoder for a subset, and stub servers *)
(* ===================================================================== *)

(** A reference decoder used to instantiate [json_loads] in the examples.
    It covers the JSON subset the examples need: objects, arrays, strings
    without escape sequences, integers, [true], [false], [null], and
    whitespace. Anything else is reported as a decoding failure; the
    general theorems never depend on it. *)
Module Json.

Definition is_ws (c : ascii) : bool :=
  let n := nat_of_ascii c in
  (n =? 32)%nat || (n =? 9)%nat || (n =? 10)%nat || (n =? 13)%nat.

Definition is_digit (c : ascii) : bool :=
  let n := nat_of_ascii c in (48 <=? n)%nat && (n <=? 57)%nat.

Fixpoint skip_ws (l : list ascii) : list ascii :=
  match l with
  | c :: r => if is_ws c then skip_ws r else l
  | [] => []
  end.

Fixpoint strip_prefix (p l : list ascii) : option (list ascii) :=
  match p, l with
  | [], _ => Some l
  | a :: p', b :: l' => if Ascii.eqb a b then strip_prefix p' l' else None
  | _ :: _, [] => None
  end.

Fixpoint parse_digits (l : list ascii) (acc : Z) : Z * list ascii :=
  match l with
  | c :: r =>
      if is_digit c
      then parse_digits r (10 * acc + Z.of_nat (nat_of_ascii c - 48))
      else (acc, l)
  | [] => (acc, [])
  end.

(** Digits of an integer literal: no leading zero, no fraction or exponent. *)
Definition parse_nat_literal (l : list ascii) : option (Z * list ascii) :=
  match l with
  | c :: r =>
      if negb (is_digit c) then None
      else
        let '(n, rest) := parse_digits l 0 in
        let leading_zero :=
          Ascii.eqb c "0"%char
          && match r with d :: _ => is_digit d | [] => false end in
        let continues :=
          match rest with
          | d :: _ => Ascii.eqb d "."%char || Ascii.eqb d "e"%char
                      || Ascii.eqb d "E"%char
          | [] => false
          end in
        if leading_zero || continues then None else Some (n, rest)
  | [] => None
  end.

(** The characters of a string literal after its opening quote. *)
Fixpoint parse_string_body (l : list ascii) : option (string * list ascii) :=
  match l with
  | [] => None
  | c :: r =>
      if Ascii.eqb c "034"%char then Some (EmptyString, r)
      else if Ascii.eqb c "\"%char || (nat_of_ascii c <? 32)%nat then None
      else match parse_string_body r with
           | Some (s, r') => Some (String c s, r')
           | None => None
           end
  end.

Fixpoint parse_value (fuel : nat) (l : list ascii) {struct fuel}
  : option (pyvalue * list ascii) :=
  match fuel with
  | O => None
  | S fuel' =>
      match skip_ws l with
      | [] => None
      | c :: r =>
          if Ascii.eqb c "{"%char then
            match skip_ws r with
            | c' :: r' =>
                if Ascii.eqb c' "}"%char then Some (PyDict [], r')
                else parse_members fuel' r []
            | [] => None
            end
          else if Ascii.eqb c "["%char then
            match skip_ws r with
            | c' :: r' =>
                if Ascii.eqb c' "]"%char then Some (PyList [], r')
                else parse_elements fuel' r []
            | [] => None
            end
          else if Ascii.eqb c "034"%char then
            match parse_string_body r with
            | Some (s, r') => Some (PyStr s, r')
            | None => None
            end
          else if Ascii.eqb c "-"%char then
            match parse_nat_literal r with
            | Some (n, r') => Some (PyInt (- n), r')
            | None => None
            end
          else if is_digit c then
            match parse_nat_literal (c :: r) with
            | Some (n, r') => Some (PyInt n, r')
            | None => None
            end
          else
            match strip_prefix (list_ascii_of_string "true") (c :: r) with
            | Some r' => Some (PyBool true, r')
            | None =>
            match strip_prefix (list_ascii_of_string "false") (c :: r) with
            | Some r' => Some (PyBool false, r')
            | None =>
            match strip_prefix (list_ascii_of_string "null") (c :: r) with
            | Some r' => Some (PyNone, r')
            | None => None
            end end end
      end
  end
with parse_elements (fuel : nat) (l : list ascii) (acc : list pyvalue)
    {struct fuel} : option (pyvalue * list ascii) :=
  match fuel with
  | O => None
  | S fuel' =>
      match parse_value fuel' l with
      | Some (v, r) =>
          match skip_ws r with
          | c :: r' =>
              if Ascii.eqb c ","%char then parse_elements fuel' r' (acc ++ [v])
              else if Ascii.eqb c "]"%char then Some (PyList (acc ++ [v]), r')
              else None
          | [] => None
          end
      | None => None
      end
  end
with parse_members (fuel : nat) (l : list ascii) (acc : dict)
    {struct fuel} : option (pyvalue * list ascii) :=
  match fuel with
  | O => None
  | S fuel' =>
      match skip_ws l with
      | q :: r0 =>
          if negb (Ascii.eqb q "034"%char) then None
          else
            match parse_string_body r0 with
            | Some (k, r1) =>
                match skip_ws r1 with
                | colon :: r2 =>
                    if negb (Ascii.eqb colon ":"%char) then None
                    else
                      match parse_value fuel' r2 with
                      | Some (v, r3) =>
                          match skip_ws r3 with
                          | c :: r4 =>
                              if Ascii.eqb c ","%char
                              then parse_members fuel' r4 (dict_set k v acc)
                              else if Ascii.eqb c "}"%char
                              then Some (PyDict (dict_set k v acc), r4)
                              else None
                          | [] => None
                          end
                      | None => None
                      end
                | [] => None
                end
            | None => None
            end
      | [] => None
      end
  end.

Definition loads (s : string) : option pyvalue :=
  let l := list_ascii_of_string s in
  match parse_value (2 * List.length l + 2) l with
  | Some (v, r) => match skip_ws r with [] => Some v | _ :: _ => None end
  | None => None
  end.

End Json.

Module Stub.

(** Placeholders for [json.dumps] and [str]: the examples below do not
    depend on how a value is rendered. *)
Definition dumps (v : pyvalue) : string := "<json>".
Definition str (v : pyvalue) : string := "<str>".

Definition url : string := "http://localhost:8000/sse".

Definition clean_handshake : Handshake :=
  {| sse_client_enter := Done; sse_client_exit := None;
     client_session_enter := Done; client_session_exit := None;
     session_initialize := Done |}.

(** The transport cannot be opened. *)
Definition refused_handshake : Handshake :=
  {| sse_client_enter := Fails (Exn ConnectionError "All connection attempts failed" None);
     sse_client_exit := None;
     client_session_enter := Done; client_session_exit := None;
     session_initialize := Done |}.

(** The connection opens, but releasing the transport raises. *)
Definition sticky_handshake : Handshake :=
  {| sse_client_enter := Done;
     sse_client_exit :=
       Some (Exn RuntimeError
               "Attempted to exit cancel scope in a different task than it was entered in"
               None);
     client_session_enter := Done; client_session_exit := None;
     session_initialize := Done |}.


Definition upload_blob : RemoteTool :=
  {| tool_name := "upload_blob";
     tool_description := PyStr "Upload text to a blob";
     tool_inputSchema :=
       PyDict [("required", PyList [PyStr "content"]);
               ("properties",
                PyDict [("content", PyDict [("type", PyStr "string")])])] |}.

Definition list_blobs : RemoteTool :=
  {| tool_name := "list_blobs";
     tool_description := PyStr "List the blobs of a container";
     tool_inputSchema := PyDict [] |}.

Definition quote : string := String "034"%char EmptyString.

(** The text [{"a":1}] *)
Definition json_a1 : string := "{" ++ quote ++ "a" ++ quote ++ ":1}".

Definition reset : exn := Exn ConnectionError "connection reset" None.

(** A tool call result with one text item. *)
Definition text_answer (payload : string) : option CallToolResult :=
  Some {| content := [TextContent payload] |}.

(** A server that offers two tools, fails the first [failures] tool calls
    of the run and gives [answer] to every later call. *)
Definition server (hs : Handshake) (failures : nat)
    (answer : option CallToolResult) : Server :=
  {| handshake := fun _ => hs;
     list_tools_response := fun _ => Return [upload_blob; list_blobs];
     call_tool_response := fun n _ _ =>
       if (n <? failures)%nat then Raise reset else Return answer |}.

(** Answers every call with the text [{"a":1}]. *)
Definition healthy : Server := server clean_handshake 0 (text_answer json_a1).

(** Fails two calls, then answers. *)
Definition flaky : Server := server clean_handshake 2 (text_answer json_a1).

(** Cannot be connected to. *)
Definition unreachable : Server := server refused_handshake 0 (text_answer json_a1).

(** Connects, but the transport cannot be released. *)
Definition sticky : Server := server sticky_handshake 0 (text_answer json_a1).

(** A server whose every tool call fails, the n-th with its own message. *)
Definition failing_server : Server :=
  {| handshake := fun _ => clean_handshake;
     list_tools_response := fun _ => Return [upload_blob; list_blobs];
     call_tool_response := fun n _ _ =>
       Raise (Exn ConnectionError
                ("connection reset " ++ String (ascii_of_nat (48 + n)) EmptyString) None) |}.

(** A new connection object in a new process. *)
Definition fresh : ConnState :=
  {| world := initial_world; self := ServerConnection_init url |}.

(** The connection object after [connect] against [srv]. *)
Definition opened (srv : Server) : ConnState := snd (connect srv fresh).

Definition content_tool : Tool.t :=
  {| Tool.name := "upload_blob";
     Tool.description := "Upload text to a blob";
     Tool.input_schema :=
       [("required", PyList [PyStr "content"]);
        ("properties",
         PyDict [("content", PyDict [("type", PyStr "string")]);
                 ("overwrite", PyDict [("type", PyStr "boolean")]);
                 ("ttl", PyDict [("type", PyStr "integer")])])];
     Tool._required_params := ["content"];
     Tool._properties :=
       [("content", [("type", PyStr "string")]);
        ("overwrite", [("type", PyStr "boolean")]);
        ("ttl", [("type", PyStr "integer")])] |}.

End Stub.


(* ===================================================================== *)
(** * Properties *)
(* ===================================================================== *)

(** ** Tool.validate_arguments *)

Section ValidateArguments.

Import Tool.

Lemma dict_contains_cons (k k' : string) (v : pyvalue) (d : dict) :
  dict_contains k ((k', v) :: d) = String.eqb k' k || dict_contains k d.
Proof.
  unfold dict_contains; simpl. destruct (String.eqb k' k); reflexivity.
Qed.

Lemma dict_contains_set (k p : string) (v : pyvalue) (d : dict) :
  dict_contains k d = true -> dict_contains k (dict_set p v d) = true.
Proof.
  induction d as [|[k' v'] d IH]; simpl; intros H.
  - discriminate H.
  - rewrite dict_contains_cons in H.
    destruct (String.eqb k' p) eqn:Ep.
    + apply String.eqb_eq in Ep; subst k'.
      rewrite dict_contains_cons. exact H.
    + rewrite dict_contains_cons.
      destruct (String.eqb k' k); [reflexivity | apply IH, H].
Qed.

Lemma check_required_none (required : list string) (arguments : dict) :
  check_required required arguments = None <->
  (forall p, In p required -> dict_contains p arguments = true).
Proof.
  induction required as [|q required IH]; simpl.
  - split; [intros _ p [] | reflexivity].
  - destruct (dict_contains q arguments) eqn:Eq; simpl.
    + rewrite IH. split.
      * intros H p [<-|Hp]; [exact Eq | apply H, Hp].
      * intros H p Hp. apply H. right. exact Hp.
    + split; [discriminate|].
      intros H. rewrite (H q (or_introl eq_refl)) in Eq. discriminate Eq.
Qed.

(** The first loop reports the first required name that is absent. *)
Lemma check_required_some (required : list string) (arguments : dict) (msg : string) :
  check_required required arguments = Some msg ->
  exists before q after,
    required = (before ++ q :: after)%list
    /\ (forall p, In p before -> dict_contains p arguments = true)
    /\ dict_contains q arguments = false
    /\ msg = "Required parameter '" ++ q ++ "' is missing".
Proof.
  induction required as [|q required IH]; simpl; [discriminate|].
  destruct (dict_contains q arguments) eqn:Eq; simpl.
  - intros H. destruct (IH H) as (before & q' & after & -> & Hb & Hq & ->).
    exists (q :: before), q', after. repeat split; trivial.
    intros p [<-|Hp]; [exact Eq | apply Hb, Hp].
  - intros [= <-]. exists [], q, required. repeat split; trivial.
    intros p [].
Qed.

Lemma check_type_table (tag param_name : string) (v : pyvalue) :
  check_type (Some (PyStr tag)) param_name v =
  if shape_matches tag v then None
  else Some ("Parameter '" ++ param_name ++ "' should be " ++ expected_kind tag).
Proof.
  unfold check_type, shape_matches, expected_kind, eq_str.
  destruct (String.eqb_spec tag "string") as [->|_]; simpl.
  { destruct (isinstance_str v); reflexivity. }
  destruct (String.eqb_spec tag "number") as [->|_]; simpl.
  { destruct (isinstance_int v || isinstance_float v); reflexivity. }
  destruct (String.eqb_spec tag "integer") as [->|_]; simpl.
  { destruct (isinstance_int v); reflexivity. }
  destruct (String.eqb_spec tag "boolean") as [->|_]; simpl.
  { destruct (isinstance_bool v); reflexivity. }
  destruct (String.eqb_spec tag "array") as [->|_]; simpl.
  { destruct (isinstance_list v); reflexivity. }
  destruct (String.eqb_spec tag "object") as [->|_]; simpl.
  { destruct (isinstance_dict v); reflexivity. }
  reflexivity.
Qed.

(** A failure of the chain comes from a declared string tag that the
    value does not satisfy. *)
Lemma check_param_some (props : list (string * dict)) (q : string)
    (w : pyvalue) (msg : string) :
  check_param props q w = Some msg ->
  exists schema tag,
    properties_get q props = Some schema
    /\ dict_get "type" schema = Some (PyStr tag)
    /\ shape_matches tag w = false
    /\ msg = "Parameter '" ++ q ++ "' should be " ++ expected_kind tag.
Proof.
  unfold check_param.
  destruct (properties_get q props) as [schema|]; [|discriminate].
  destruct (dict_get "type" schema) as [[| | | |tag| |]|] eqn:Et;
    try (unfold check_type; simpl; discriminate).
  rewrite check_type_table.
  destruct (shape_matches tag w) eqn:Em; [discriminate|].
  intros [= <-]. exists schema, tag. repeat split; trivial.
Qed.

Lemma check_param_mismatch (props : list (string * dict)) (q : string)
    (w : pyvalue) (schema : dict) (tag : string) :
  properties_get q props = Some schema ->
  dict_get "type" schema = Some (PyStr tag) ->
  shape_matches tag w = false ->
  check_param props q w
  = Some ("Parameter '" ++ q ++ "' should be " ++ expected_kind tag).
Proof.
  intros Hs Ht Hm. unfold check_param.
  rewrite Hs, Ht, check_type_table, Hm. reflexivity.
Qed.

Lemma check_types_none (props : list (string * dict)) (items : dict) :
  check_types props items = None <->
  (forall q w, In (q, w) items -> check_param props q w = None).
Proof.
  induction items as [|[k v] items IH]; simpl.
  - split; [intros _ q w [] | reflexivity].
  - destruct (check_param props k v) eqn:Ek.
    + split; [discriminate|].
      intros H. rewrite (H k v (or_introl eq_refl)) in Ek. discriminate Ek.
    + rewrite IH. split.
      * intros H q w [[= <- <-]|Hq]; [exact Ek | apply H, Hq].
      * intros H q w Hq. apply H. right. exact Hq.
Qed.

(** The second loop reports the first item, in the order of
    [arguments.items()], that fails its check. *)
Lemma check_types_some (props : list (string * dict)) (items : dict) (msg : string) :
  check_types props items = Some msg ->
  exists before q w after,
    items = (before ++ (q, w) :: after)%list
    /\ check_types props before = None
    /\ check_param props q w = Some msg.
Proof.
  induction items as [|[k v] items IH]; simpl; [discriminate|].
  destruct (check_param props k v) eqn:Ek.
  - intros [= <-]. exists [], k, v, items. repeat split; trivial.
  - intros H. destruct (IH H) as (before & q & w & after & -> & Hb & Hq).
    exists ((k, v) :: before), q, w, after. simpl. rewrite Ek.
    repeat split; trivial.
Qed.

Lemma check_types_app (props : list (string * dict)) (xs ys : dict) :
  check_types props (xs ++ ys)%list =
  match check_types props xs with
  | Some msg => Some msg
  | None => check_types props ys
  end.
Proof.
  induction xs as [|[k v] xs IH]; simpl; [reflexivity|].
  destruct (check_param props k v); [reflexivity | exact IH].
Qed.

(** After [arguments[p] = v] on accepted arguments, only [p] can fail. *)
Lemma check_types_set (props : list (string * dict)) (p : string)
    (v : pyvalue) (items : dict) :
  check_types props items = None ->
  check_types props (dict_set p v items) = check_param props p v.
Proof.
  induction items as [|[k w] items IH]; simpl; intros H.
  - destruct (check_param props p v); reflexivity.
  - destruct (check_param props k w) eqn:Ek; [discriminate H|].
    destruct (String.eqb k p); simpl.
    + rewrite H. destruct (check_param props p v); reflexivity.
    + rewrite Ek. apply IH, H.
Qed.

Lemma validate_arguments_accepts (tool : Tool.t) (arguments : dict) :
  validate_arguments tool arguments = (true, None) <->
  check_required (required_params tool) arguments = None
  /\ check_types (_properties tool) arguments = None.
Proof.
  unfold validate_arguments.
  destruct (check_required (required_params tool) arguments);
    [split; [discriminate | intros [H _]; discriminate H]|].
  destruct (check_types (_properties tool) arguments);
    [split; [discriminate | intros [_ H]; discriminate H]|].
  split; auto.
Qed.

(** C8. [validate_arguments] fails, naming the parameter, whenever a
    name of the schema's required list is absent from the arguments (the
    first absent one, in list order, is the one named). When the required
    names are all present and some argument that the schema's properties
    declare does not pass the runtime check of its type tag, it fails with
    a message that names the parameter and the expected kind (the first
    such item in the order of the arguments). With required ["content"],
    validating the empty mapping fails citing content, and validating
    content = "x" succeeds for every schema that does not declare content
    with a tag that a string fails. *)
Theorem validate_arguments_reports (tool : Tool.t) (arguments : dict) :
  ((exists p, In p (required_params tool) /\ dict_contains p arguments = false) ->
   exists q,
     In q (required_params tool) /\ dict_contains q arguments = false
     /\ validate_arguments tool arguments
        = (false, Some ("Required parameter '" ++ q ++ "' is missing")))
  /\ (forall p v schema tag,
        (forall r, In r (required_params tool) -> dict_contains r arguments = true) ->
        In (p, v) arguments ->
        properties_get p (_properties tool) = Some schema ->
        dict_get "type" schema = Some (PyStr tag) ->
        shape_matches tag v = false ->
        exists before q w after schema' tag',
          arguments = (before ++ (q, w) :: after)%list
          /\ check_types (_properties tool) before = None
          /\ properties_get q (_properties tool) = Some schema'
          /\ dict_get "type" schema' = Some (PyStr tag')
          /\ shape_matches tag' w = false
          /\ validate_arguments tool arguments
             = (false,
                Some ("Parameter '" ++ q ++ "' should be " ++ expected_kind tag')))
  /\ (required_params tool = ["content"] ->
      validate_arguments tool []
      = (false, Some "Required parameter 'content' is missing"))
  /\ (required_params tool = ["content"] ->
      (forall schema tag,
          properties_get "content" (_properties tool) = Some schema ->
          dict_get "type" schema = Some (PyStr tag) ->
          shape_matches tag (PyStr "x") = true) ->
      validate_arguments tool [("content", PyStr "x")] = (true, None)).
Proof.
  repeat split.
  - intros (p & Hp & Habs).
    destruct (check_required (required_params tool) arguments) as [msg|] eqn:Er.
    + destruct (check_required_some _ _ _ Er)
        as (before & q & after & Hreq & _ & Hq & ->).
      exists q. repeat split; trivial.
      * rewrite Hreq. apply in_or_app. right. left. reflexivity.
      * unfold validate_arguments. rewrite Er. reflexivity.
    + rewrite check_required_none in Er. rewrite (Er p Hp) in Habs.
      discriminate Habs.
  - intros p v schema tag Hreq Hin Hs Ht Hm.
    apply check_required_none in Hreq.
    destruct (check_types (_properties tool) arguments) as [msg|] eqn:Et.
    + destruct (check_types_some _ _ _ Et)
        as (before & q & w & after & Hargs & Hb & Hq).
      destruct (check_param_some _ _ _ _ Hq) as (schema' & tag' & Hs' & Ht' & Hm' & ->).
      exists before, q, w, after, schema', tag'. repeat split; trivial.
      unfold validate_arguments. rewrite Hreq, Et. reflexivity.
    + rewrite check_types_none in Et. specialize (Et p v Hin).
      rewrite (check_param_mismatch _ _ _ _ _ Hs Ht Hm) in Et. discriminate Et.
  - intros Hreq. unfold validate_arguments. rewrite Hreq. reflexivity.
  - intros Hreq Hprops. apply validate_arguments_accepts. split.
    + rewrite Hreq. reflexivity.
    + simpl. destruct (check_param (_properties tool) "content" (PyStr "x"))
        as [msg|] eqn:Ec; [|reflexivity].
      destruct (check_param_some _ _ _ _ Ec) as (schema & tag & Hs & Ht & Hm & _).
      rewrite (Hprops schema tag Hs Ht) in Hm. discriminate Hm.
Qed.

(** The four parts of C8 on the upload_blob schema: content missing,
    content = 5 where a string is declared, and the two examples. *)
Lemma validate_arguments_reports_witness :
  (exists q,
      In q (required_params Stub.content_tool)
      /\ dict_contains q [("ttl", PyInt 3)] = false
      /\ validate_arguments Stub.content_tool [("ttl", PyInt 3)]
         = (false, Some ("Required parameter '" ++ q ++ "' is missing")))
  /\ (exists before q w after schema' tag',
        [("ttl", PyInt 3); ("content", PyInt 5)] = (before ++ (q, w) :: after)%list
        /\ check_types (_properties Stub.content_tool) before = None
        /\ properties_get q (_properties Stub.content_tool) = Some schema'
        /\ dict_get "type" schema' = Some (PyStr tag')
        /\ shape_matches tag' w = false
        /\ validate_arguments Stub.content_tool
             [("ttl", PyInt 3); ("content", PyInt 5)]
           = (false,
              Some ("Parameter '" ++ q ++ "' should be " ++ expected_kind tag')))
  /\ validate_arguments Stub.content_tool []
     = (false, Some "Required parameter 'content' is missing")
  /\ validate_arguments Stub.content_tool [("content", PyStr "x")] = (true, None).
Proof.
  split; [|split; [|split]].
  - apply (proj1 (validate_arguments_reports Stub.content_tool [("ttl", PyInt 3)])).
    exists "content". split; [left; reflexivity | reflexivity].
  - apply (proj1 (proj2 (validate_arguments_reports Stub.content_tool
                           [("ttl", PyInt 3); ("content", PyInt 5)]))
             "content" (PyInt 5) [("type", PyStr "string")] "string").
    + intros r [<-|[]]. reflexivity.
    + right. left. reflexivity.
    + reflexivity.
    + reflexivity.
    + reflexivity.
  - apply (proj1 (proj2 (proj2 (validate_arguments_reports Stub.content_tool [])))).
    reflexivity.
  - apply (proj2 (proj2 (proj2 (validate_arguments_reports Stub.content_tool [])))).
    + reflexivity.
    + intros schema tag Hs Ht. simpl in Hs. injection Hs as <-.
      simpl in Ht. injection Ht as <-. reflexivity.
Defined.

(** C10. Where the schema declares a parameter as "integer" or "number",
    setting that parameter to a Python boolean in accepted arguments
    leaves them accepted, because [isinstance(True, int)] holds;
    conversely, where it declares "boolean", setting the parameter to an
    integer makes validation fail with the message that the parameter
    should be a boolean. *)
Theorem validate_arguments_bool_is_int (tool : Tool.t) (arguments : dict)
    (p : string) (schema : dict) :
  properties_get p (_properties tool) = Some schema ->
  validate_arguments tool arguments = (true, None) ->
  (forall b : bool,
      dict_get "type" schema = Some (PyStr "integer")
      \/ dict_get "type" schema = Some (PyStr "number") ->
      validate_arguments tool (dict_set p (PyBool b) arguments) = (true, None))
  /\ (forall n : Z,
         dict_get "type" schema = Some (PyStr "boolean") ->
         validate_arguments tool (dict_set p (PyInt n) arguments)
         = (false, Some ("Parameter '" ++ p ++ "' should be a boolean"))).
Proof.
  intros Hs Hok. apply validate_arguments_accepts in Hok as [Hreq Htypes].
  assert (Hreq' : forall v,
             check_required (required_params tool) (dict_set p v arguments) = None).
  { intros v. apply check_required_none. intros r Hr.
    apply dict_contains_set. revert r Hr. apply check_required_none, Hreq. }
  split.
  - intros b Htag. apply validate_arguments_accepts. split; [apply Hreq'|].
    rewrite (check_types_set _ _ _ _ Htypes). unfold check_param. rewrite Hs.
    destruct Htag as [-> | ->]; reflexivity.
  - intros n Htag. unfold validate_arguments.
    rewrite Hreq', (check_types_set _ _ _ _ Htypes).
    unfold check_param. rewrite Hs, Htag. reflexivity.
Qed.

(** C10 on the upload_blob schema: ttl (an integer) takes [True], and
    overwrite (a boolean) refuses 1. *)
Lemma validate_arguments_bool_is_int_witness :
  validate_arguments Stub.content_tool
    (dict_set "ttl" (PyBool true) [("content", PyStr "x")]) = (true, None)
  /\ validate_arguments Stub.content_tool
       (dict_set "overwrite" (PyInt 1) [("content", PyStr "x")])
     = (false, Some "Parameter 'overwrite' should be a boolean").
Proof.
  split.
  - apply (proj1 (validate_arguments_bool_is_int Stub.content_tool
                    [("content", PyStr "x")] "ttl" [("type", PyStr "integer")]
                    eq_refl eq_refl) true).
    left. reflexivity.
  - apply (proj2 (validate_arguments_bool_is_int Stub.content_tool
                    [("content", PyStr "x")] "overwrite" [("type", PyStr "boolean")]
                    eq_refl eq_refl) 1).
    reflexivity.
Defined.

End ValidateArguments.

(** ** ServerConnection *)

Section Connection.

Variable srv : Server.
Variable json_loads : string -> option pyvalue.

Lemma count_app (p : Event -> bool) (xs ys : list Event) :
  count p (xs ++ ys)%list = (count p xs + count p ys)%nat.
Proof. unfold count. rewrite filter_app, length_app. reflexivity. Qed.

Lemma add_events_nil (st : ConnState) : add_events [] st = st.
Proof.
  destruct st as [[tr names] c]. unfold add_events; simpl.
  rewrite app_nil_r. reflexivity.
Qed.

Lemma add_events_app (xs ys : list Event) (st : ConnState) :
  add_events ys (add_events xs st) = add_events (xs ++ ys)%list st.
Proof. unfold add_events; simpl. rewrite app_assoc. reflexivity. Qed.

Lemma list_tools_not_connected (st : ConnState) :
  session (self st) = None ->
  list_tools srv st
  = (Raise (Exn RuntimeError "Not connected to MCP server" None), st).
Proof.
  intros H. unfold list_tools, bind, get_self. rewrite H. reflexivity.
Qed.

Lemma list_tools_cached (st : ConnState) (s : ClientSession)
    (cache : list ToolEntry) :
  session (self st) = Some s ->
  _tools_cache (self st) = Some cache ->
  list_tools srv st = (Return cache, st).
Proof.
  intros Hs Hc. unfold list_tools, bind, get_self. rewrite Hs, Hc. reflexivity.
Qed.

(** The state after a successful first listing. *)
Lemma list_tools_fetch (st : ConnState) (s : ClientSession) :
  session (self st) = Some s ->
  _tools_cache (self st) = None ->
  list_tools srv st =
  match list_tools_response srv (count is_list_tools (trace (world st))) with
  | Return tools =>
      (Return (map tool_entry tools),
       {| world := world (add_events [EvListTools] st);
          self := set_tools_cache (Some (map tool_entry tools)) (self st) |})
  | Raise e => (Raise e, add_events [EvListTools] st)
  end.
Proof.
  intros Hs Hc.
  unfold list_tools, bind, get_self. rewrite Hs, Hc.
  unfold session_list_tools, bind, get_trace, emit, lift.
  destruct (list_tools_response srv _); reflexivity.
Qed.

(** A listing that returns leaves the session in place, the cache
    holding what it returned, and at most one more listing request in
    the trace, and nothing else. *)
Lemma list_tools_returns (st st1 : ConnState) (tools : list ToolEntry) :
  list_tools srv st = (Return tools, st1) ->
  session (self st1) = session (self st)
  /\ session (self st) <> None
  /\ _tools_cache (self st1) = Some tools
  /\ (st1 = st \/ trace (world st1) = (trace (world st) ++ [EvListTools])%list).
Proof.
  destruct (session (self st)) as [s|] eqn:Hs.
  - destruct (_tools_cache (self st)) as [cache|] eqn:Hc.
    + rewrite (list_tools_cached _ _ _ Hs Hc). intros [= <- <-].
      rewrite Hs. repeat split; auto. discriminate.
    + rewrite (list_tools_fetch _ _ Hs Hc).
      destruct (list_tools_response srv _); [|discriminate].
      intros [= <- <-]. simpl. rewrite Hs. repeat split; auto. discriminate.
  - rewrite (list_tools_not_connected _ Hs). discriminate.
Qed.

(** C7. Without a session, [list_tools] raises the not-connected error.
    With a session, whenever a call of [list_tools] returns, a second call
    right after it returns the same sequence and leaves the state, and so
    the trace, as it is (it is served from the cache); the two calls
    together add at most one listing request. The first call returns as
    soon as the cache is populated or the server answers the request. *)
Theorem list_tools_twice (st : ConnState) :
  (session (self st) = None ->
   list_tools srv st
   = (Raise (Exn RuntimeError "Not connected to MCP server" None), st))
  /\ (forall tools st1,
         list_tools srv st = (Return tools, st1) ->
         list_tools srv st1 = (Return tools, st1)
         /\ (count is_list_tools (trace (world st1))
             <= count is_list_tools (trace (world st)) + 1)%nat)
  /\ (session (self st) <> None ->
      (_tools_cache (self st) <> None
       \/ exists ts, list_tools_response srv
                       (count is_list_tools (trace (world st))) = Return ts) ->
      exists tools st1, list_tools srv st = (Return tools, st1)).
Proof.
  split; [apply list_tools_not_connected|]. split.
  - intros tools st1 H.
    destruct (list_tools_returns _ _ _ H) as (Hs & Hsome & Hc & Htr).
    split.
    + destruct (session (self st1)) as [s|] eqn:Hs1.
      * apply (list_tools_cached _ s); assumption.
      * congruence.
    + destruct Htr as [-> | ->]; [apply Nat.le_add_r|].
      rewrite count_app. apply Nat.le_refl.
  - intros Hs Hready.
    destruct (session (self st)) as [s|] eqn:Hs'; [|congruence].
    destruct (_tools_cache (self st)) as [cache|] eqn:Hc.
    + exists cache, st. apply (list_tools_cached _ s); assumption.
    + destruct Hready as [Hn | [ts Hts]]; [congruence|].
      rewrite (list_tools_fetch _ _ Hs' Hc), Hts. eauto.
Qed.


(** *** execute_tool *)

Lemma retry_loop_step (tool_name : string) (arguments : pyvalue)
    (retries : Z) (retry_delay : Q) (attempt : Z) :
  retry_loop srv json_loads tool_name arguments retries retry_delay attempt =
  if (attempt <=? retries)%Z then
    try_except
      (call_once srv json_loads tool_name arguments)
      (fun e =>
         if (attempt + 1 <=? retries)%Z then
           delay <- lift (backoff retry_delay (attempt + 1)) ;;
           emit (EvSleep delay) ;;
           retry_loop srv json_loads tool_name arguments retries retry_delay
             (attempt + 1)
         else raise (execution_failed tool_name e))
  else ret PyNone.
Proof.
  rewrite retry_loop_equation_1.
  destruct (Z_le_dec attempt retries) as [Hle|Hgt];
    destruct (Z.leb_spec attempt retries); try lia; reflexivity.
Qed.

Lemma call_once_run (tool_name : string) (arguments : pyvalue) (st : ConnState) :
  call_once srv json_loads tool_name arguments st =
  (attempt_result srv json_loads (count is_call_tool (trace (world st)))
     tool_name arguments,
   add_events [EvCallTool tool_name arguments] st).
Proof.
  unfold call_once, attempt_result, session_call_tool, bind, get_trace, emit, lift.
  destruct (call_tool_response srv _ tool_name arguments); reflexivity.
Qed.

Lemma count_calls_add (evs : list Event) (st : ConnState) :
  count is_call_tool (trace (world (add_events evs st)))
  = (count is_call_tool (trace (world st)) + count is_call_tool evs)%nat.
Proof. simpl. apply count_app. Qed.

(** An attempt that returns ends the loop with its value. *)
Lemma retry_loop_success (tool_name : string) (arguments : pyvalue)
    (retries : Z) (retry_delay : Q) (attempt : Z) (st : ConnState) (v : pyvalue) :
  (attempt <= retries)%Z ->
  attempt_result srv json_loads (count is_call_tool (trace (world st)))
    tool_name arguments = Return v ->
  retry_loop srv json_loads tool_name arguments retries retry_delay attempt st
  = (Return v, add_events [EvCallTool tool_name arguments] st).
Proof.
  intros Hle Hres. rewrite retry_loop_step.
  destruct (Z.leb_spec attempt retries); [|lia].
  unfold try_except. rewrite call_once_run, Hres. reflexivity.
Qed.

(** A failure of the last permitted attempt raises the wrapping error. *)
Lemma retry_loop_exhausted (tool_name : string) (arguments : pyvalue)
    (retries : Z) (retry_delay : Q) (st : ConnState) (e : exn) :
  attempt_result srv json_loads (count is_call_tool (trace (world st)))
    tool_name arguments = Raise e ->
  retry_loop srv json_loads tool_name arguments retries retry_delay retries st
  = (Raise (execution_failed tool_name e),
     add_events [EvCallTool tool_name arguments] st).
Proof.
  intros Hres. rewrite retry_loop_step.
  destruct (Z.leb_spec retries retries); [|lia].
  unfold try_except. rewrite call_once_run, Hres.
  destruct (Z.leb_spec (retries + 1) retries); [lia|]. reflexivity.
Qed.

Lemma backoff_in_range (retry_delay : Q) (attempt : Z) :
  (attempt <= 1024)%Z ->
  backoff retry_delay attempt
  = Return (retry_delay * inject_Z (2 ^ (attempt - 1)))%Q.
Proof.
  intros H. unfold backoff.
  destruct (Z.leb_spec 1024 (attempt - 1)); [lia | reflexivity].
Qed.

Lemma backoff_overflow (retry_delay : Q) (attempt : Z) :
  (1025 <= attempt)%Z ->
  backoff retry_delay attempt
  = Raise (Exn OverflowError "int too large to convert to float" None).
Proof.
  intros H. unfold backoff.
  destruct (Z.leb_spec 1024 (attempt - 1)); [reflexivity | lia].
Qed.

(** A failure of attempt 1024 with a retry left: the delay of retry 1025
    cannot be computed, and the [OverflowError] leaves the handler. *)
Lemma retry_loop_overflow (tool_name : string) (arguments : pyvalue)
    (retries : Z) (retry_delay : Q) (st : ConnState) (e : exn) :
  (1025 <= retries)%Z ->
  attempt_result srv json_loads (count is_call_tool (trace (world st)))
    tool_name arguments = Raise e ->
  retry_loop srv json_loads tool_name arguments retries retry_delay 1024 st
  = (Raise (Exn OverflowError "int too large to convert to float" None),
     add_events [EvCallTool tool_name arguments] st).
Proof.
  intros Hr Hres. rewrite retry_loop_step.
  destruct (Z.leb_spec 1024 retries); [|lia].
  unfold try_except. rewrite call_once_run, Hres.
  destruct (Z.leb_spec (1024 + 1) retries); [|lia].
  unfold bind, lift. rewrite backoff_overflow by lia. reflexivity.
Qed.

(** [n] failed attempts, each with a retry left whose delay is within
    the float range, starting with the attempt that precedes retry
    number [k]. *)
Lemma retry_loop_failures (tool_name : string) (arguments : pyvalue)
    (retries : Z) (retry_delay : Q) (n : nat) :
  forall (k : nat) (st : ConnState),
    (1 <= k)%nat ->
    (Z.of_nat k - 1 + Z.of_nat n <= retries)%Z ->
    (Z.of_nat k - 1 + Z.of_nat n <= 1024)%Z ->
    (forall i, (i < n)%nat ->
       exists e,
         attempt_result srv json_loads
           (count is_call_tool (trace (world st)) + i) tool_name arguments
         = Raise e) ->
    retry_loop srv json_loads tool_name arguments retries retry_delay
      (Z.of_nat k - 1) st
    = retry_loop srv json_loads tool_name arguments retries retry_delay
        (Z.of_nat (k + n) - 1)
        (add_events (expected_retries tool_name arguments retry_delay k n) st).
Proof.
  induction n as [|n IH]; intros k st Hk Hle Hfloat Hfail.
  - simpl. rewrite add_events_nil, Nat.add_0_r. reflexivity.
  - rewrite retry_loop_step.
    destruct (Z.leb_spec (Z.of_nat k - 1) retries); [|lia].
    unfold try_except at 1. rewrite call_once_run.
    destruct (Hfail 0%nat (Nat.lt_0_succ n)) as [e He].
    rewrite Nat.add_0_r in He. rewrite He.
    destruct (Z.leb_spec (Z.of_nat k - 1 + 1) retries); [|lia].
    unfold bind at 1, lift at 1. rewrite backoff_in_range by lia.
    unfold bind at 1, emit at 1. rewrite add_events_app.
    replace (Z.of_nat k - 1 + 1)%Z with (Z.of_nat (S k) - 1)%Z by lia.
    rewrite (IH (S k)).
    + rewrite add_events_app.
      replace (Z.of_nat (S k) - 1 - 1)%Z with (Z.of_nat k - 1)%Z by lia.
      replace (S k + n)%nat with (k + S n)%nat by lia. reflexivity.
    + lia.
    + lia.
    + lia.
    + intros i Hi. rewrite count_calls_add.
      change (count is_call_tool
                ([EvCallTool tool_name arguments] ++ [EvSleep _])%list)
        with 1%nat.
      replace (count is_call_tool (trace (world st)) + 1 + i)%nat
        with (count is_call_tool (trace (world st)) + S i)%nat by lia.
      apply Hfail. lia.
Qed.

Lemma count_calls_expected_retries (tool_name : string) (arguments : pyvalue)
    (retry_delay : Q) (n k : nat) :
  count is_call_tool (expected_retries tool_name arguments retry_delay k n) = n.
Proof.
  revert k. induction n as [|n IH]; intros k; [reflexivity|].
  simpl. unfold count in *. simpl. rewrite IH. reflexivity.
Qed.

Lemma sleeps_app (xs ys : list Event) :
  sleeps (xs ++ ys) = (sleeps xs ++ sleeps ys)%list.
Proof.
  induction xs as [|[| | |d] xs IH]; simpl; rewrite ?IH; reflexivity.
Qed.

Lemma sleeps_expected_retries (tool_name : string) (arguments : pyvalue)
    (retry_delay : Q) (n k : nat) :
  sleeps (expected_retries tool_name arguments retry_delay k n)
  = map (fun j => (retry_delay * inject_Z (2 ^ (Z.of_nat j - 1)))%Q) (seq k n).
Proof.
  revert k. induction n as [|n IH]; intros k; [reflexivity|].
  simpl. rewrite IH. reflexivity.
Qed.

Lemma execute_tool_found (st st1 : ConnState) (tools : list ToolEntry)
    (tool_name : string) (arguments : pyvalue) (retries : Z) (retry_delay : Q) :
  list_tools srv st = (Return tools, st1) ->
  existsb (fun tool => String.eqb (name tool) tool_name) tools = true ->
  execute_tool srv json_loads tool_name arguments retries retry_delay st
  = retry_loop srv json_loads tool_name arguments retries retry_delay 0 st1.
Proof.
  intros Hl Hf. destruct (list_tools_returns _ _ _ Hl) as (_ & Hs & _).
  unfold execute_tool, bind at 1, get_self.
  destruct (session (self st)); [|congruence].
  unfold bind. rewrite Hl, Hf. reflexivity.
Qed.

Lemma execute_tool_not_found (st st1 : ConnState) (tools : list ToolEntry)
    (tool_name : string) (arguments : pyvalue) (retries : Z) (retry_delay : Q) :
  list_tools srv st = (Return tools, st1) ->
  existsb (fun tool => String.eqb (name tool) tool_name) tools = false ->
  execute_tool srv json_loads tool_name arguments retries retry_delay st
  = (Raise (Exn ValueError
              ("Tool '" ++ tool_name ++ "' not found on MCP server") None),
     st1).
Proof.
  intros Hl Hf. destruct (list_tools_returns _ _ _ Hl) as (_ & Hs & _).
  unfold execute_tool, bind at 1, get_self.
  destruct (session (self st)); [|congruence].
  unfold bind. rewrite Hl, Hf. reflexivity.
Qed.




(** C5. For a connected connection and a tool of the listing, when the
    tool call of the first attempt returns: a result whose first content
    item has a text that parses as JSON gives the parsed value; a text
    that does not parse gives the one-field mapping [{"text": text}]; a
    missing result or an empty content gives the error-marker mapping
    [{"error": "No content received from tool"}] as a returned value. In
    each case exactly one tool call is made and nothing is slept. *)
Theorem execute_tool_result_shape (st st1 : ConnState) (tools : list ToolEntry)
    (tool_name : string) (arguments : pyvalue) (retries : Z) (retry_delay : Q)
    (result : option CallToolResult) :
  list_tools srv st = (Return tools, st1) ->
  existsb (fun tool => String.eqb (name tool) tool_name) tools = true ->
  (0 <= retries)%Z ->
  call_tool_response srv (count is_call_tool (trace (world st1)))
    tool_name arguments = Return result ->
  let run := execute_tool srv json_loads tool_name arguments retries retry_delay st in
  let st2 := add_events [EvCallTool tool_name arguments] st1 in
  (forall text rest v,
      result = Some {| content := TextContent text :: rest |} ->
      json_loads text = Some v ->
      run = (Return v, st2))
  /\ (forall text rest,
         result = Some {| content := TextContent text :: rest |} ->
         json_loads text = None ->
         run = (Return (PyDict [("text", PyStr text)]), st2))
  /\ (result = None \/ result = Some {| content := [] |} ->
      run = (Return (PyDict [("error", PyStr "No content received from tool")]),
             st2)).
Proof.
  intros Hl Hf Hr Hcall run st2. subst run st2.
  rewrite (execute_tool_found _ _ _ _ _ _ _ Hl Hf).
  repeat split.
  - intros text rest v -> Hj. apply retry_loop_success; [exact Hr|].
    unfold attempt_result. rewrite Hcall. simpl. rewrite Hj. reflexivity.
  - intros text rest -> Hj. apply retry_loop_success; [exact Hr|].
    unfold attempt_result. rewrite Hcall. simpl. rewrite Hj. reflexivity.
  - intros [-> | ->]; (apply retry_loop_success; [exact Hr|]);
      unfold attempt_result; rewrite Hcall; reflexivity.
Qed.

(** C6. For a connected connection whose listing (cached or fetched)
    does not contain the tool name, [execute_tool] raises the
    tool-not-found error in the state the listing left: no tool call is
    made and nothing is slept, so nothing is retried. *)
Theorem execute_tool_unknown_tool (st st1 : ConnState) (tools : list ToolEntry)
    (tool_name : string) (arguments : pyvalue) (retries : Z) (retry_delay : Q) :
  list_tools srv st = (Return tools, st1) ->
  (forall tool, In tool tools -> name tool <> tool_name) ->
  execute_tool srv json_loads tool_name arguments retries retry_delay st
  = (Raise (Exn ValueError
              ("Tool '" ++ tool_name ++ "' not found on MCP server") None),
     st1)
  /\ count is_call_tool (trace (world st1)) = count is_call_tool (trace (world st))
  /\ count is_sleep (trace (world st1)) = count is_sleep (trace (world st)).
Proof.
  intros Hl Hnone. split.
  - apply (execute_tool_not_found _ _ tools); [exact Hl|].
    destruct (existsb _ tools) eqn:Ex; [|reflexivity].
    apply existsb_exists in Ex as (tool & Hin & Heq).
    apply String.eqb_eq in Heq. elim (Hnone tool Hin Heq).
  - destruct (list_tools_returns _ _ _ Hl) as (_ & _ & _ & [-> | ->]).
    + split; reflexivity.
    + rewrite !count_app. split; apply Nat.add_0_r.
Qed.

End Connection.

(** *** connect and cleanup *)

Section Lifecycle.

Variable srv : Server.

Lemma run_exit_callbacks_clean (stack : list Resource) (pending : option exn) :
  Forall (fun r => resource_exit r = None) stack ->
  run_exit_callbacks stack pending = pending.
Proof.
  intros H. revert pending. induction H as [|r stack Hr _ IH]; intros pending.
  - reflexivity.
  - simpl. rewrite Hr. apply IH.
Qed.

(** [cleanup] never raises and does not touch the world. *)
Lemma cleanup_returns (st : ConnState) :
  exists c, cleanup st = (Return tt, {| world := world st; self := c |})
            /\ exit_stack c = [].
Proof.
  cbv [cleanup try_except bind aclose get_self modify_self ret raise]; simpl.
  destruct (run_exit_callbacks (exit_stack (self st)) None); simpl;
    eexists; split; reflexivity.
Qed.

(** When every release succeeds, [cleanup] resets the connection. *)
Lemma cleanup_resets (st : ConnState) :
  run_exit_callbacks (exit_stack (self st)) None = None ->
  cleanup st
  = (Return tt,
     {| world := world st; self := ServerConnection_init (server_url (self st)) |}).
Proof.
  intros H.
  cbv [cleanup try_except bind aclose get_self modify_self ret raise]; simpl.
  rewrite H. reflexivity.
Qed.

(** When a release raises, [cleanup] swallows the error and skips the
    three assignments. *)
Lemma cleanup_release_fails (st : ConnState) (e : exn) :
  run_exit_callbacks (exit_stack (self st)) None = Some e ->
  cleanup st
  = (Return tt, {| world := world st; self := set_exit_stack [] (self st) |}).
Proof.
  intros H.
  cbv [cleanup try_except bind aclose get_self modify_self ret raise]; simpl.
  rewrite H. reflexivity.
Qed.


Lemma connect_ok (st : ConnState) :
  let n := count is_connect (trace (world st)) in
  let h := handshake srv n in
  handshake_ok h = true ->
  connect srv st
  = (Return true,
     {| world := world (add_events [EvConnect] st);
        self :=
          {| server_url := server_url (self st);
             session := Some {| session_no := n |};
             exit_stack :=
               {| resource_exit := client_session_exit h |}
               :: {| resource_exit := sse_client_exit h |}
               :: exit_stack (self st);
             _tools_cache := _tools_cache (self st);
             connected := true |} |}).
Proof.
  intros n h. subst n h. unfold handshake_ok.
  cbv [connect wait_for _connect try_except bind get_trace emit
       enter_async_context await modify_self ret raise].
  destruct (sse_client_enter _); try discriminate.
  destruct (client_session_enter _); try discriminate.
  destruct (session_initialize _); try discriminate.
  reflexivity.
Qed.

(** On an object that is not connected (no session, no cache, flag
    unset), a failed [connect] returns [False] and leaves the object as
    [__init__] makes it, whatever is on the exit stack, whatever the
    releases do and whether the attempt raised or timed out. *)
Lemma connect_failed (st : ConnState) :
  session (self st) = None ->
  _tools_cache (self st) = None ->
  connected (self st) = false ->
  handshake_ok (handshake srv (count is_connect (trace (world st)))) = false ->
  connect srv st
  = (Return false,
     {| world := world (add_events [EvConnect] st);
        self := ServerConnection_init (server_url (self st)) |}).
Proof.
  destruct st as [w [url ses stack cache conn]]. simpl.
  intros -> -> ->. unfold handshake_ok.
  cbv [connect wait_for _connect try_except bind get_trace emit
       enter_async_context await modify_self ret raise cleanup aclose get_self].
  simpl.
  destruct (sse_client_enter _); simpl.
  - destruct (client_session_enter _); simpl.
    + destruct (session_initialize _); simpl; [discriminate| |]; intros _;
        destruct (run_exit_callbacks stack _); reflexivity.
    + intros _. destruct (run_exit_callbacks stack _); reflexivity.
    + intros _. destruct (run_exit_callbacks stack _); reflexivity.
  - intros _. destruct (run_exit_callbacks stack None); reflexivity.
  - intros _. destruct (run_exit_callbacks stack None); reflexivity.
Qed.




(** C3, the defect. On a connection that [connect] opened and whose
    tools were listed, when releasing the transport raises, [cleanup]
    returns normally but leaves the connected flag set, the session in
    place and the tool cache populated; only a second [cleanup] resets
    them. *)
Theorem cleanup_skips_reset_when_release_fails :
  let srv := Stub.sticky in
  let st0 := Stub.fresh in
  let st1 := snd ((connect srv ;; list_tools srv) st0) in
  let st2 := snd (cleanup st1) in
  let st3 := snd (cleanup st2) in
  fst (connect srv st0) = Return true
  /\ fst (cleanup st1) = Return tt
  /\ connected (self st2) = true
  /\ session (self st2) = Some {| session_no := 0 |}
  /\ _tools_cache (self st2)
     = Some (map tool_entry [Stub.upload_blob; Stub.list_blobs])
  /\ fst (cleanup st2) = Return tt
  /\ self st3 = ServerConnection_init Stub.url.
Proof. vm_compute. repeat split; reflexivity. Qed.

End Lifecycle.

(** ** Function adapter layer and direct executor *)

Section AdapterLayer.

Variable srv : Server.
Variable json_loads : string -> option pyvalue.
Variable json_dumps : pyvalue -> string.
Variable py_str : pyvalue -> string.
Variable mcp_server_url : string.

Lemma dict_remove_absent (k : string) (d : dict) :
  dict_contains k d = false -> dict_remove k d = d.
Proof.
  induction d as [|[k' v] d IH]; simpl; [reflexivity|].
  rewrite dict_contains_cons. destruct (String.eqb k' k); simpl; [discriminate|].
  intros H. rewrite (IH H). reflexivity.
Qed.

Lemma dict_get_absent (k : string) (d : dict) :
  dict_contains k d = false -> dict_get k d = None.
Proof.
  unfold dict_contains. destruct (dict_get k d); [discriminate | reflexivity].
Qed.

(** C2. Called with the bundle as keyword arguments, the adapter
    normalizes, and the direct executor normalizes alike: kwargs = the
    empty string gives the empty mapping; kwargs = the text of
    [{"a":1}] gives the mapping a = 1; kwargs = a non-empty string that
    is not JSON, such as not-json, gives the mapping value = that string;
    a flat mapping without a kwargs field, such as a = 1, is passed
    through unchanged. *)
Theorem argument_normalization :
  json_loads Stub.json_a1 = Some (PyDict [("a", PyInt 1)]) ->
  json_loads "not-json" = None ->
  (call_with_keywords (tool_func_args json_loads) [("kwargs", PyStr EmptyString)]
   = PyDict []
   /\ direct_args json_loads (PyDict [("kwargs", PyStr EmptyString)]) = PyDict [])
  /\ (call_with_keywords (tool_func_args json_loads)
        [("kwargs", PyStr Stub.json_a1)] = PyDict [("a", PyInt 1)]
      /\ direct_args json_loads (PyDict [("kwargs", PyStr Stub.json_a1)])
         = PyDict [("a", PyInt 1)])
  /\ (call_with_keywords (tool_func_args json_loads)
        [("kwargs", PyStr "not-json")] = PyDict [("value", PyStr "not-json")]
      /\ direct_args json_loads (PyDict [("kwargs", PyStr "not-json")])
         = PyDict [("value", PyStr "not-json")])
  /\ (forall s,
         s <> EmptyString -> json_loads s = None ->
         call_with_keywords (tool_func_args json_loads) [("kwargs", PyStr s)]
         = PyDict [("value", PyStr s)]
         /\ direct_args json_loads (PyDict [("kwargs", PyStr s)])
            = PyDict [("value", PyStr s)])
  /\ (call_with_keywords (tool_func_args json_loads) [("a", PyInt 1)]
      = PyDict [("a", PyInt 1)]
      /\ direct_args json_loads (PyDict [("a", PyInt 1)]) = PyDict [("a", PyInt 1)])
  /\ (forall d,
         dict_contains "kwargs" d = false ->
         call_with_keywords (tool_func_args json_loads) d = PyDict d
         /\ direct_args json_loads (PyDict d) = PyDict d).
Proof.
  intros Ha1 Hnj.
  assert (Hgen : forall s,
             s <> EmptyString -> json_loads s = None ->
             call_with_keywords (tool_func_args json_loads) [("kwargs", PyStr s)]
             = PyDict [("value", PyStr s)]
             /\ direct_args json_loads (PyDict [("kwargs", PyStr s)])
                = PyDict [("value", PyStr s)]).
  { intros s Hs Hj.
    unfold call_with_keywords, tool_func_args, direct_args; simpl.
    destruct (String.eqb_spec s EmptyString) as [->|_]; [elim Hs; reflexivity|].
    rewrite Hj. simpl. split; reflexivity. }
  assert (Hflat : forall d,
             dict_contains "kwargs" d = false ->
             call_with_keywords (tool_func_args json_loads) d = PyDict d
             /\ direct_args json_loads (PyDict d) = PyDict d).
  { intros d Hd.
    unfold call_with_keywords, tool_func_args, direct_args.
    rewrite (dict_remove_absent _ _ Hd), (dict_get_absent _ _ Hd).
    cbv beta zeta iota. rewrite (dict_get_absent _ _ Hd).
    split; reflexivity. }
  split; [split; reflexivity|].
  split.
  { unfold call_with_keywords, tool_func_args, direct_args; simpl.
    rewrite Ha1. simpl. split; reflexivity. }
  split; [apply Hgen; [discriminate | exact Hnj]|].
  split; [exact Hgen|].
  split; [apply Hflat; reflexivity | exact Hflat].
Qed.


Lemma count_add_connect (p : Event -> bool) (st : ConnState) :
  p EvConnect = false ->
  count p (trace (world (add_events [EvConnect] st)))
  = count p (trace (world st)).
Proof.
  intros H. simpl. rewrite count_app. unfold count at 2. simpl. rewrite H.
  apply Nat.add_0_r.
Qed.

Lemma is_mcp_function_in (name : string) (w : World) :
  is_mcp_function name w = true <-> In name (mcp_tool_names w).
Proof.
  unfold is_mcp_function. rewrite existsb_exists. split.
  - intros (x & Hin & Heq). apply String.eqb_eq in Heq. subst x. exact Hin.
  - intros Hin. exists name. split; [exact Hin | apply String.eqb_refl].
Qed.

(** A discovery whose connection and listing both succeed. *)
Lemma fetch_tools_ok (w : World) (ts : list RemoteTool) :
  handshake_ok (handshake srv (count is_connect (trace w))) = true ->
  list_tools_response srv (count is_list_tools (trace w)) = Return ts ->
  exists w',
    fetch_tools srv mcp_server_url w = (Return (map tool_entry ts), w')
    /\ mcp_tool_names w' = mcp_tool_names w.
Proof.
  intros Hh Hl. unfold fetch_tools, with_new_connection.
  set (st0 := {| world := w; self := ServerConnection_init mcp_server_url |}).
  unfold bind at 1. rewrite (connect_ok srv st0 Hh).
  unfold bind at 1. erewrite list_tools_fetch; [|reflexivity|reflexivity].
  cbn [world]. rewrite (count_add_connect is_list_tools st0 eq_refl).
  change (world st0) with w. rewrite Hl. unfold bind.
  match goal with
  | |- context [cleanup ?st] =>
      destruct (cleanup_returns st) as (c & -> & _)
  end.
  eexists. split; reflexivity.
Qed.

(** A discovery that cannot connect, or whose listing request fails. *)
Lemma fetch_tools_fails (w : World) :
  handshake_ok (handshake srv (count is_connect (trace w))) = false
  \/ (exists e, list_tools_response srv (count is_list_tools (trace w)) = Raise e) ->
  exists e w',
    fetch_tools srv mcp_server_url w = (Raise e, w')
    /\ mcp_tool_names w' = mcp_tool_names w.
Proof.
  intros H. unfold fetch_tools, with_new_connection.
  set (st0 := {| world := w; self := ServerConnection_init mcp_server_url |}).
  destruct (handshake_ok (handshake srv (count is_connect (trace w)))) eqn:Hh.
  - destruct H as [H | [e He]]; [discriminate H|].
    unfold bind at 1. rewrite (connect_ok srv st0 Hh).
    unfold bind at 1. erewrite list_tools_fetch; [|reflexivity|reflexivity].
    cbn [world]. rewrite (count_add_connect is_list_tools st0 eq_refl).
    change (world st0) with w. rewrite He. eexists. eexists. split; reflexivity.
  - unfold bind at 1. rewrite (connect_failed srv st0 eq_refl eq_refl eq_refl Hh).
    unfold bind at 1. rewrite list_tools_not_connected; [|reflexivity].
    eexists. eexists. split; reflexivity.
Qed.

(** C9. [is_mcp_function] is false for every name before any discovery.
    After [create_mcp_functions], whatever the registry held before: if
    the discovery connected and the server listed tools, it is true
    exactly for the names listed; if the discovery failed (no connection,
    or a failed listing request), [create_mcp_functions] still returns,
    with no adapters, and [is_mcp_function] is false for every name. *)
Theorem is_mcp_function_tracks_discovery (w : World) :
  (forall name, is_mcp_function name initial_world = false)
  /\ (forall ts,
         handshake_ok (handshake srv (count is_connect (trace w))) = true ->
         list_tools_response srv (count is_list_tools (trace w)) = Return ts ->
         exists w',
           create_mcp_functions srv mcp_server_url w
           = (Return (map tool_name ts), w')
           /\ forall name,
                is_mcp_function name w' = true <-> In name (map tool_name ts))
  /\ (handshake_ok (handshake srv (count is_connect (trace w))) = false
      \/ (exists e,
             list_tools_response srv (count is_list_tools (trace w)) = Raise e) ->
      exists w',
        create_mcp_functions srv mcp_server_url w = (Return [], w')
        /\ forall name, is_mcp_function name w' = false).
Proof.
  split; [reflexivity|]. split.
  - intros ts Hh Hl.
    destruct (fetch_tools_ok {| trace := trace w; mcp_tool_names := [] |} ts Hh Hl)
      as (w1 & Hf & _).
    unfold create_mcp_functions, bind at 1, set_mcp_tool_names at 1.
    unfold bind at 1, try_except, bind at 1. rewrite Hf.
    unfold bind, set_mcp_tool_names, ret.
    assert (Hnames : map name (map tool_entry ts) = map tool_name ts).
    { rewrite map_map. reflexivity. }
    rewrite Hnames. eexists. split; [reflexivity|].
    intros name. apply is_mcp_function_in.
  - intros Hfail.
    destruct (fetch_tools_fails {| trace := trace w; mcp_tool_names := [] |} Hfail)
      as (e & w1 & Hf & Hn).
    unfold create_mcp_functions, bind at 1, set_mcp_tool_names at 1.
    unfold bind at 1, try_except, bind at 1. rewrite Hf.
    unfold ret. eexists. split; [reflexivity|].
    intros name. unfold is_mcp_function. rewrite Hn. reflexivity.
Qed.

(** C4 as the code has it. The direct executor has no exception handling
    of its own. When the connection cannot be opened,
    [execute_mcp_tool_async] raises the not-connected error of
    [execute_tool]; whatever [execute_tool] raises on the opened
    connection (unknown tool, retries exhausted) is raised unchanged; and
    when [execute_tool] returns, [execute_mcp_tool_async] returns the
    result rendered as a string ([json.dumps] of a mapping, [str]
    otherwise), the error-marker mapping of an empty content included. *)
Theorem direct_executor_propagates (function_name : string) (arguments : pyvalue)
    (w : World) :
  let st0 := {| world := w; self := ServerConnection_init mcp_server_url |} in
  let run := execute_mcp_tool_async srv json_loads json_dumps py_str
               mcp_server_url function_name arguments w in
  (handshake_ok (handshake srv (count is_connect (trace w))) = false ->
   run = (Raise (Exn RuntimeError "Not connected to MCP server" None),
          world (add_events [EvConnect] st0)))
  /\ (forall b st1 e st2,
         connect srv st0 = (Return b, st1) ->
         execute_tool srv json_loads function_name
           (direct_args json_loads arguments) 3 1 st1 = (Raise e, st2) ->
         run = (Raise e, world st2))
  /\ (forall b st1 r st2,
         connect srv st0 = (Return b, st1) ->
         execute_tool srv json_loads function_name
           (direct_args json_loads arguments) 3 1 st1 = (Return r, st2) ->
         run = (Return (if isinstance_dict r then json_dumps r else py_str r),
                world st2)).
Proof.
  intros st0 run. subst run.
  assert (Hraise : forall b st1 e st2,
             connect srv st0 = (Return b, st1) ->
             execute_tool srv json_loads function_name
               (direct_args json_loads arguments) 3 1 st1 = (Raise e, st2) ->
             execute_mcp_tool_async srv json_loads json_dumps py_str
               mcp_server_url function_name arguments w = (Raise e, world st2)).
  { intros b st1 e st2 Hc He.
    unfold execute_mcp_tool_async, bind at 1, execute_mcp_tool_directly,
      with_new_connection.
    fold st0. unfold bind at 1. rewrite Hc. unfold bind at 1. rewrite He.
    reflexivity. }
  split; [|split; [exact Hraise|]].
  - intros Hh. apply (Hraise false _ _ _ (connect_failed srv st0 eq_refl eq_refl eq_refl Hh)).
    unfold execute_tool, bind, get_self. reflexivity.
  - intros b st1 r st2 Hc Hr.
    unfold execute_mcp_tool_async, bind at 1, execute_mcp_tool_directly,
      with_new_connection.
    fold st0. unfold bind at 1. rewrite Hc. unfold bind at 1. rewrite Hr.
    unfold bind at 1. destruct (cleanup_returns st2) as (c & -> & _).
    unfold ret. simpl. destruct (isinstance_dict r); reflexivity.
Qed.

End AdapterLayer.

(* ===================================================================== *)
(** ** The theorems on the stub servers *)
(* ===================================================================== *)

(** C7 on a stub: not connected; listed twice after connecting. *)
Lemma list_tools_twice_witness :
  list_tools Stub.healthy Stub.fresh
  = (Raise (Exn RuntimeError "Not connected to MCP server" None), Stub.fresh)
  /\ (let st1 := snd (list_tools Stub.healthy (Stub.opened Stub.healthy)) in
      list_tools Stub.healthy st1
      = (Return (map tool_entry [Stub.upload_blob; Stub.list_blobs]), st1)
      /\ (count is_list_tools (trace (world st1))
          <= count is_list_tools (trace (world (Stub.opened Stub.healthy))) + 1)%nat)
  /\ (exists tools st1,
         list_tools Stub.healthy (Stub.opened Stub.healthy) = (Return tools, st1)).
Proof.
  split; [|split].
  - apply (proj1 (list_tools_twice Stub.healthy Stub.fresh)). reflexivity.
  - apply (proj1 (proj2 (list_tools_twice Stub.healthy (Stub.opened Stub.healthy)))).
    reflexivity.
  - apply (proj2 (proj2 (list_tools_twice Stub.healthy (Stub.opened Stub.healthy)))).
    + discriminate.
    + right. exists [Stub.upload_blob; Stub.list_blobs]. reflexivity.
Defined.



(** C5 on stubs: a JSON text, a text that is not JSON, and no content. *)
Lemma execute_tool_result_shape_witness :
  execute_tool Stub.healthy Json.loads "upload_blob"
    (PyDict [("content", PyStr "x")]) 3 1 (Stub.opened Stub.healthy)
  = (Return (PyDict [("a", PyInt 1)]),
     add_events [EvCallTool "upload_blob" (PyDict [("content", PyStr "x")])]
       (snd (list_tools Stub.healthy (Stub.opened Stub.healthy))))
  /\ (let srv := Stub.server Stub.clean_handshake 0 (Stub.text_answer "done") in
      execute_tool srv Json.loads "upload_blob"
        (PyDict [("content", PyStr "x")]) 3 1 (Stub.opened srv)
      = (Return (PyDict [("text", PyStr "done")]),
         add_events [EvCallTool "upload_blob" (PyDict [("content", PyStr "x")])]
           (snd (list_tools srv (Stub.opened srv)))))
  /\ (let srv := Stub.server Stub.clean_handshake 0 (Some {| content := [] |}) in
      execute_tool srv Json.loads "upload_blob"
        (PyDict [("content", PyStr "x")]) 3 1 (Stub.opened srv)
      = (Return (PyDict [("error", PyStr "No content received from tool")]),
         add_events [EvCallTool "upload_blob" (PyDict [("content", PyStr "x")])]
           (snd (list_tools srv (Stub.opened srv))))).
Proof.
  split; [|split].
  - apply (proj1 (execute_tool_result_shape Stub.healthy Json.loads
                    (Stub.opened Stub.healthy)
                    (snd (list_tools Stub.healthy (Stub.opened Stub.healthy)))
                    (map tool_entry [Stub.upload_blob; Stub.list_blobs])
                    "upload_blob" (PyDict [("content", PyStr "x")]) 3 1
                    (Stub.text_answer Stub.json_a1)
                    eq_refl eq_refl ltac:(lia) eq_refl)
             Stub.json_a1 []).
    + reflexivity.
    + vm_compute. reflexivity.
  - cbv zeta.
    apply (proj1 (proj2 (execute_tool_result_shape
                    (Stub.server Stub.clean_handshake 0 (Stub.text_answer "done"))
                    Json.loads
                    (Stub.opened
                       (Stub.server Stub.clean_handshake 0 (Stub.text_answer "done")))
                    _
                    (map tool_entry [Stub.upload_blob; Stub.list_blobs])
                    "upload_blob" (PyDict [("content", PyStr "x")]) 3 1
                    (Stub.text_answer "done")
                    eq_refl eq_refl ltac:(lia) eq_refl))
             "done" []).
    + reflexivity.
    + vm_compute. reflexivity.
  - cbv zeta.
    apply (proj2 (proj2 (execute_tool_result_shape
                    (Stub.server Stub.clean_handshake 0 (Some {| content := [] |}))
                    Json.loads
                    (Stub.opened
                       (Stub.server Stub.clean_handshake 0 (Some {| content := [] |})))
                    _
                    (map tool_entry [Stub.upload_blob; Stub.list_blobs])
                    "upload_blob" (PyDict [("content", PyStr "x")]) 3 1
                    (Some {| content := [] |})
                    eq_refl eq_refl ltac:(lia) eq_refl))).
    right. reflexivity.
Defined.

(** C6 on a stub: a tool the server does not list. *)
Lemma execute_tool_unknown_tool_witness :
  let st := Stub.opened Stub.healthy in
  let st1 := snd (list_tools Stub.healthy st) in
  execute_tool Stub.healthy Json.loads "delete_blob" (PyDict []) 3 1 st
  = (Raise (Exn ValueError "Tool 'delete_blob' not found on MCP server" None), st1)
  /\ count is_call_tool (trace (world st1)) = count is_call_tool (trace (world st))
  /\ count is_sleep (trace (world st1)) = count is_sleep (trace (world st)).
Proof.
  cbv zeta.
  apply (execute_tool_unknown_tool Stub.healthy Json.loads
           (Stub.opened Stub.healthy)
           (snd (list_tools Stub.healthy (Stub.opened Stub.healthy)))
           (map tool_entry [Stub.upload_blob; Stub.list_blobs])
           "delete_blob" (PyDict []) 3 1 eq_refl).
  intros tool [<- | [<- | []]]; discriminate.
Defined.

(** C2 with the reference decoder. *)
Lemma argument_normalization_witness :
  (call_with_keywords (tool_func_args Json.loads) [("kwargs", PyStr EmptyString)]
   = PyDict []
   /\ direct_args Json.loads (PyDict [("kwargs", PyStr EmptyString)]) = PyDict [])
  /\ (call_with_keywords (tool_func_args Json.loads)
        [("kwargs", PyStr Stub.json_a1)] = PyDict [("a", PyInt 1)]
      /\ direct_args Json.loads (PyDict [("kwargs", PyStr Stub.json_a1)])
         = PyDict [("a", PyInt 1)])
  /\ (call_with_keywords (tool_func_args Json.loads)
        [("kwargs", PyStr "not-json")] = PyDict [("value", PyStr "not-json")]
      /\ direct_args Json.loads (PyDict [("kwargs", PyStr "not-json")])
         = PyDict [("value", PyStr "not-json")])
  /\ (call_with_keywords (tool_func_args Json.loads) [("a", PyInt 1)]
      = PyDict [("a", PyInt 1)]
      /\ direct_args Json.loads (PyDict [("a", PyInt 1)]) = PyDict [("a", PyInt 1)]).
Proof.
  destruct (argument_normalization Json.loads
              ltac:(vm_compute; reflexivity) ltac:(vm_compute; reflexivity))
    as (Hempty & Hjson & Hraw & _ & Hflat & _).
  repeat split;
    first [apply Hempty | apply Hjson | apply Hraw | apply Hflat].
Defined.

(** C9 on stubs: a discovery that lists two tools, and one that cannot
    connect. *)
Lemma is_mcp_function_tracks_discovery_witness :
  (exists w',
      create_mcp_functions Stub.healthy Stub.url initial_world
      = (Return ["upload_blob"; "list_blobs"], w')
      /\ forall name,
           is_mcp_function name w' = true
           <-> In name ["upload_blob"; "list_blobs"])
  /\ (exists w',
         create_mcp_functions Stub.unreachable Stub.url
           {| trace := []; mcp_tool_names := ["upload_blob"] |}
         = (Return [], w')
         /\ forall name, is_mcp_function name w' = false).
Proof.
  split.
  - apply (proj1 (proj2 (is_mcp_function_tracks_discovery
                           Stub.healthy Stub.url initial_world))
             [Stub.upload_blob; Stub.list_blobs]); reflexivity.
  - apply (proj2 (proj2 (is_mcp_function_tracks_discovery
                           Stub.unreachable Stub.url
                           {| trace := []; mcp_tool_names := ["upload_blob"] |}))).
    left. reflexivity.
Defined.

(** C4, counterexample: the direct executor lets the not-connected error
    out when the server cannot be reached, and the wrapping error when
    every attempt fails. *)
Lemma execute_mcp_tool_async_raises :
  fst (execute_mcp_tool_async Stub.unreachable Json.loads Stub.dumps Stub.str
         Stub.url "upload_blob" (PyDict [("content", PyStr "x")]) initial_world)
  = Raise (Exn RuntimeError "Not connected to MCP server" None)
  /\ fst (execute_mcp_tool_async Stub.failing_server Json.loads Stub.dumps
            Stub.str Stub.url "upload_blob" (PyDict [("content", PyStr "x")])
            initial_world)
     = Raise (Exn PyException
                "Failed to execute tool 'upload_blob': connection reset 3"
                (Some (Exn ConnectionError "connection reset 3" None))).
Proof. split; vm_compute; reflexivity. Qed.

(** C4 as the code has it, on stubs: unreachable server, failing server
    and healthy server. *)
Lemma direct_executor_propagates_witness :
  execute_mcp_tool_async Stub.unreachable Json.loads Stub.dumps Stub.str
    Stub.url "upload_blob" (PyDict [("content", PyStr "x")]) initial_world
  = (Raise (Exn RuntimeError "Not connected to MCP server" None),
     world (add_events [EvConnect] Stub.fresh))
  /\ fst (execute_mcp_tool_async Stub.failing_server Json.loads Stub.dumps
            Stub.str Stub.url "upload_blob" (PyDict [("content", PyStr "x")])
            initial_world)
     = Raise (Exn PyException
                "Failed to execute tool 'upload_blob': connection reset 3"
                (Some (Exn ConnectionError "connection reset 3" None)))
  /\ fst (execute_mcp_tool_async Stub.healthy Json.loads Stub.dumps Stub.str
            Stub.url "upload_blob" (PyDict [("content", PyStr "x")])
            initial_world)
     = Return (Stub.dumps (PyDict [("a", PyInt 1)])).
Proof.
  split; [|split].
  - apply (proj1 (direct_executor_propagates Stub.unreachable Json.loads
                    Stub.dumps Stub.str Stub.url "upload_blob"
                    (PyDict [("content", PyStr "x")]) initial_world)).
    reflexivity.
  - rewrite (proj1 (proj2 (direct_executor_propagates Stub.failing_server
                    Json.loads Stub.dumps Stub.str Stub.url "upload_blob"
                    (PyDict [("content", PyStr "x")]) initial_world))
               true (Stub.opened Stub.failing_server)
               (Exn PyException
                  "Failed to execute tool 'upload_blob': connection reset 3"
                  (Some (Exn ConnectionError "connection reset 3" None)))
               (snd (execute_tool Stub.failing_server Json.loads "upload_blob"
                       (PyDict [("content", PyStr "x")]) 3 1
                       (Stub.opened Stub.failing_server)))
               ltac:(vm_compute; reflexivity) ltac:(vm_compute; reflexivity)).
    reflexivity.
  - rewrite (proj2 (proj2 (direct_executor_propagates Stub.healthy
                    Json.loads Stub.dumps Stub.str Stub.url "upload_blob"
                    (PyDict [("content", PyStr "x")]) initial_world))
               true (Stub.opened Stub.healthy)
               (PyDict [("a", PyInt 1)])
               (snd (execute_tool Stub.healthy Json.loads "upload_blob"
                       (PyDict [("content", PyStr "x")]) 3 1
                       (Stub.opened Stub.healthy)))
               ltac:(vm_compute; reflexivity) ltac:(vm_compute; reflexivity)).
    reflexivity.
Defined.

(* ===================================================================== *)
(** * Further properties of the code *)
(* ===================================================================== *)

(** ** Connection lifecycle *)

Section LifecycleExtras.

Variable srv : Server.


(** X2. [cleanup] never raises, leaves the world as it is and always
    empties the exit stack; after two consecutive calls the object is as
    [__init__] makes it, whether or not a release raised. *)
Theorem cleanup_twice_resets (st : ConnState) :
  exists st1 st2,
    cleanup st = (Return tt, st1)
    /\ cleanup st1 = (Return tt, st2)
    /\ world st1 = world st
    /\ exit_stack (self st1) = []
    /\ st2 = {| world := world st;
                self := ServerConnection_init (server_url (self st)) |}.
Proof.
  destruct (run_exit_callbacks (exit_stack (self st)) None) as [e|] eqn:Hr.
  - eexists _, _. split; [apply (cleanup_release_fails st e Hr)|].
    split; [apply cleanup_resets; reflexivity|].
    repeat split.
  - eexists _, _. split; [apply (cleanup_resets st Hr)|].
    split; [apply cleanup_resets; reflexivity|].
    repeat split.
Qed.

(** X3. [cleanup] drops the tool cache: when the releases succeed and the
    server accepts a new connection, cleaning up, connecting again and
    listing always sends a listing request, even if the tools were cached
    before, and returns what the server lists now. *)
Theorem cleanup_invalidates_cache (st : ConnState) :
  run_exit_callbacks (exit_stack (self st)) None = None ->
  handshake_ok (handshake srv (count is_connect (trace (world st)))) = true ->
  let run := (cleanup ;; connect srv ;; list_tools srv) st in
  trace (world (snd run))
  = (trace (world st) ++ [EvConnect; EvListTools])%list
  /\ fst run
     = match list_tools_response srv (count is_list_tools (trace (world st))) with
       | Return tools => Return (map tool_entry tools)
       | Raise e => Raise e
       end.
Proof.
  intros Hr Hh run.
  assert (Hrun : run =
            list_tools srv
              {| world := world (add_events [EvConnect] st);
                 self :=
                   set_connected true
                     (set_session
                        (Some {| session_no := count is_connect (trace (world st)) |})
                        (set_exit_stack
                           [ {| resource_exit :=
                                  client_session_exit
                                    (handshake srv (count is_connect (trace (world st)))) |};
                             {| resource_exit :=
                                  sse_client_exit
                                    (handshake srv (count is_connect (trace (world st)))) |} ]
                           (ServerConnection_init (server_url (self st))))) |}).
  { subst run. unfold bind at 1. rewrite (cleanup_resets st Hr).
    unfold bind at 1. rewrite connect_ok; [|exact Hh]. reflexivity. }
  rewrite Hrun. erewrite list_tools_fetch; [|reflexivity|reflexivity].
  cbn [world]. rewrite (count_add_connect is_list_tools _ eq_refl).
  destruct (list_tools_response srv _); simpl; rewrite <- app_assoc;
    split; reflexivity.
Qed.

End LifecycleExtras.


(** X3 on a stub: tools cached, then cleanup, connect and list again. *)
Lemma cleanup_invalidates_cache_witness :
  let st := snd (list_tools Stub.healthy (Stub.opened Stub.healthy)) in
  _tools_cache (self st) <> None
  /\ trace (world (snd ((cleanup ;; connect Stub.healthy ;; list_tools Stub.healthy) st)))
     = [EvConnect; EvListTools; EvConnect; EvListTools].
Proof.
  cbv zeta. split; [discriminate|].
  apply (proj1 (cleanup_invalidates_cache Stub.healthy
                  (snd (list_tools Stub.healthy (Stub.opened Stub.healthy)))
                  eq_refl eq_refl)).
Defined.

(** ** The retry loop on an arbitrary server *)

Section RetryExtras.

Variable srv : Server.
Variable json_loads : string -> option pyvalue.

(** Every run of the loop from the attempt before retry [k], with [m]
    retries left: [n <= m] failed attempts are retried, and the next
    attempt either returns, or fails as the last one allowed, or fails
    as attempt 1024 with a retry left, whose delay overflows. *)
Lemma retry_loop_run (tool_name : string) (arguments : pyvalue)
    (retries : Z) (retry_delay : Q) (m : nat) :
  forall (k : nat) (st : ConnState),
    (1 <= k)%nat ->
    (Z.of_nat k - 1 <= 1024)%Z ->
    (Z.of_nat k - 1 + Z.of_nat m = retries)%Z ->
    exists n,
      (n <= m)%nat
      /\ (Z.of_nat k - 1 + Z.of_nat n <= 1024)%Z
      /\ (forall i, (i < n)%nat ->
            exists e,
              attempt_result srv json_loads
                (count is_call_tool (trace (world st)) + i) tool_name arguments
              = Raise e)
      /\ ((exists v,
              attempt_result srv json_loads
                (count is_call_tool (trace (world st)) + n) tool_name arguments
              = Return v
              /\ retry_loop srv json_loads tool_name arguments retries
                   retry_delay (Z.of_nat k - 1) st
                 = (Return v,
                    add_events
                      (expected_retries tool_name arguments retry_delay k n
                       ++ [EvCallTool tool_name arguments])%list st))
          \/ (exists e,
                 n = m
                 /\ attempt_result srv json_loads
                      (count is_call_tool (trace (world st)) + n)
                      tool_name arguments
                    = Raise e
                 /\ retry_loop srv json_loads tool_name arguments retries
                      retry_delay (Z.of_nat k - 1) st
                    = (Raise (execution_failed tool_name e),
                       add_events
                         (expected_retries tool_name arguments retry_delay k n
                          ++ [EvCallTool tool_name arguments])%list st))
          \/ (exists e,
                 (n < m)%nat
                 /\ (Z.of_nat k - 1 + Z.of_nat n = 1024)%Z
                 /\ attempt_result srv json_loads
                      (count is_call_tool (trace (world st)) + n)
                      tool_name arguments
                    = Raise e
                 /\ retry_loop srv json_loads tool_name arguments retries
                      retry_delay (Z.of_nat k - 1) st
                    = (Raise (Exn OverflowError
                                "int too large to convert to float" None),
                       add_events
                         (expected_retries tool_name arguments retry_delay k n
                          ++ [EvCallTool tool_name arguments])%list st))).
Proof.
  induction m as [|m IH]; intros k st Hk Hk' Hm.
  - exists 0%nat. split; [lia|]. split; [lia|]. split; [intros i Hi; lia|].
    rewrite Nat.add_0_r.
    destruct (attempt_result srv json_loads
                (count is_call_tool (trace (world st))) tool_name arguments)
      as [v|e] eqn:Ha.
    + left. exists v. split; [reflexivity|].
      apply retry_loop_success; [lia | exact Ha].
    + right. left. exists e. split; [reflexivity|]. split; [reflexivity|].
      replace (Z.of_nat k - 1)%Z with retries by lia.
      apply retry_loop_exhausted. exact Ha.
  - destruct (attempt_result srv json_loads
                (count is_call_tool (trace (world st))) tool_name arguments)
      as [v|e] eqn:Ha.
    + exists 0%nat. split; [lia|]. split; [lia|]. split; [intros i Hi; lia|].
      rewrite Nat.add_0_r. left. exists v. split; [exact Ha|].
      apply retry_loop_success; [lia | exact Ha].
    + destruct (Z.eq_dec (Z.of_nat k - 1) 1024) as [Hlast | Hmore].
      { exists 0%nat. split; [lia|]. split; [lia|]. split; [intros i Hi; lia|].
        rewrite Nat.add_0_r. right. right. exists e.
        split; [lia|]. split; [lia|]. split; [exact Ha|].
        rewrite Hlast. apply retry_loop_overflow with (e := e); [lia | exact Ha]. }
      assert (Hstep :
                retry_loop srv json_loads tool_name arguments retries
                  retry_delay (Z.of_nat k - 1) st
                = retry_loop srv json_loads tool_name arguments retries
                    retry_delay (Z.of_nat (S k) - 1)
                    (add_events
                       (expected_retries tool_name arguments retry_delay k 1) st)).
      { replace (S k) with (k + 1)%nat by lia.
        apply retry_loop_failures; [exact Hk | lia | lia |].
        intros i Hi. assert (i = 0)%nat as -> by lia.
        rewrite Nat.add_0_r. exists e. exact Ha. }
      destruct (IH (S k)
                  (add_events
                     (expected_retries tool_name arguments retry_delay k 1) st))
        as (n & Hn & Hn' & Hfail & Hend); [lia | lia | lia |].
      assert (Hc : count is_call_tool
                     (trace (world
                        (add_events
                           (expected_retries tool_name arguments retry_delay k 1)
                           st)))
                   = (count is_call_tool (trace (world st)) + 1)%nat).
      { rewrite count_calls_add, count_calls_expected_retries. reflexivity. }
      rewrite Hc in Hfail, Hend.
      exists (S n). split; [lia|]. split; [lia|]. split.
      { intros [|i] Hi.
        - rewrite Nat.add_0_r. exists e. exact Ha.
        - replace (count is_call_tool (trace (world st)) + S i)%nat
            with (count is_call_tool (trace (world st)) + 1 + i)%nat by lia.
          apply Hfail. lia. }
      replace (count is_call_tool (trace (world st)) + S n)%nat
        with (count is_call_tool (trace (world st)) + 1 + n)%nat by lia.
      rewrite Hstep.
      destruct Hend as [(v & Hv & Hrun)
                       | [(e' & Hnm & He' & Hrun)
                         | (e' & Hnm & Hk1 & He' & Hrun)]].
      * left. exists v. split; [exact Hv|].
        rewrite Hrun, add_events_app. reflexivity.
      * right. left. exists e'. split; [lia|]. split; [exact He'|].
        rewrite Hrun, add_events_app. reflexivity.
      * right. right. exists e'. split; [lia|]. split; [lia|].
        split; [exact He'|].
        rewrite Hrun, add_events_app. reflexivity.
Qed.

Lemma list_tools_keeps_sleeps_and_calls (st st1 : ConnState)
    (tools : list ToolEntry) :
  list_tools srv st = (Return tools, st1) ->
  sleeps (trace (world st1)) = sleeps (trace (world st))
  /\ count is_call_tool (trace (world st1))
     = count is_call_tool (trace (world st)).
Proof.
  intros Hl. destruct (list_tools_returns _ _ _ _ Hl) as (_ & _ & _ & [-> | ->]).
  - split; reflexivity.
  - rewrite sleeps_app, count_app. simpl. rewrite app_nil_r.
    split; [reflexivity | apply Nat.add_0_r].
Qed.

(** Every run of [execute_tool] with [retries = R >= 0] for a listed
    tool: [n <= R] retried failures, none after retry 1024, then a last
    attempt. *)
Lemma execute_tool_run_any (st st1 : ConnState) (tools : list ToolEntry)
    (tool_name : string) (arguments : pyvalue) (R : nat) (retry_delay : Q) :
  list_tools srv st = (Return tools, st1) ->
  existsb (fun tool => String.eqb (name tool) tool_name) tools = true ->
  exists n o,
    (n <= R)%nat
    /\ (n <= 1024)%nat
    /\ execute_tool srv json_loads tool_name arguments (Z.of_nat R)
         retry_delay st
       = (o, add_events
               (expected_retries tool_name arguments retry_delay 1 n
                ++ [EvCallTool tool_name arguments])%list st1)
    /\ ((exists v,
            o = Return v
            /\ attempt_result srv json_loads
                 (count is_call_tool (trace (world st)) + n) tool_name arguments
               = Return v)
        \/ (exists e,
               n = R
               /\ o = Raise (execution_failed tool_name e)
               /\ attempt_result srv json_loads
                    (count is_call_tool (trace (world st)) + n)
                    tool_name arguments
                  = Raise e)
        \/ (exists e,
               n = 1024%nat
               /\ (1025 <= R)%nat
               /\ o = Raise (Exn OverflowError
                               "int too large to convert to float" None)
               /\ attempt_result srv json_loads
                    (count is_call_tool (trace (world st)) + n)
                    tool_name arguments
                  = Raise e)).
Proof.
  intros Hl Hf.
  destruct (list_tools_keeps_sleeps_and_calls _ _ _ Hl) as (_ & Hcl).
  rewrite (execute_tool_found _ _ _ _ _ _ _ _ _ Hl Hf).
  change 0%Z with (Z.of_nat 1 - 1)%Z.
  destruct (retry_loop_run tool_name arguments (Z.of_nat R) retry_delay R 1 st1)
    as (n & Hn & Hn' & _ & Hend); [lia | lia | lia |].
  rewrite Hcl in Hend.
  destruct Hend as [(v & Hv & Hrun)
                   | [(e & Hnm & He & Hrun) | (e & Hnm & Hk & He & Hrun)]].
  - exists n, (Return v). split; [exact Hn|]. split; [lia|].
    split; [exact Hrun|].
    left. exists v. split; [reflexivity | exact Hv].
  - exists n, (Raise (execution_failed tool_name e)).
    split; [exact Hn|]. split; [lia|]. split; [exact Hrun|].
    right. left. exists e. repeat split; trivial.
  - exists n, (Raise (Exn OverflowError "int too large to convert to float" None)).
    split; [exact Hn|]. split; [lia|]. split; [exact Hrun|].
    right. right. exists e. split; [lia|]. split; [lia|].
    split; [reflexivity | exact He].
Qed.

(** With [R <= 1024] no delay overflows: the run ends with the last
    attempt's value or with the wrapping error. *)
Lemma execute_tool_run (st st1 : ConnState) (tools : list ToolEntry)
    (tool_name : string) (arguments : pyvalue) (R : nat) (retry_delay : Q) :
  list_tools srv st = (Return tools, st1) ->
  existsb (fun tool => String.eqb (name tool) tool_name) tools = true ->
  (R <= 1024)%nat ->
  exists n o,
    (n <= R)%nat
    /\ execute_tool srv json_loads tool_name arguments (Z.of_nat R)
         retry_delay st
       = (o, add_events
               (expected_retries tool_name arguments retry_delay 1 n
                ++ [EvCallTool tool_name arguments])%list st1)
    /\ ((exists v,
            o = Return v
            /\ attempt_result srv json_loads
                 (count is_call_tool (trace (world st)) + n) tool_name arguments
               = Return v)
        \/ (exists e,
               n = R
               /\ o = Raise (execution_failed tool_name e)
               /\ attempt_result srv json_loads
                    (count is_call_tool (trace (world st)) + n)
                    tool_name arguments
                  = Raise e)).
Proof.
  intros Hl Hf HR.
  destruct (execute_tool_run_any st st1 tools tool_name arguments R retry_delay
              Hl Hf) as (n & o & Hn & _ & Hrun & Hend).
  exists n, o. split; [exact Hn|]. split; [exact Hrun|].
  destruct Hend as [Hv | [He | (e & _ & HR' & _)]].
  - left. exact Hv.
  - right. exact He.
  - exfalso. clear - HR HR'. lia.
Qed.

Lemma sleeps_after_run (st st1 : ConnState) (tools : list ToolEntry)
    (tool_name : string) (arguments : pyvalue) (retry_delay : Q) (n : nat) :
  list_tools srv st = (Return tools, st1) ->
  sleeps (trace (world
            (add_events
               (expected_retries tool_name arguments retry_delay 1 n
                ++ [EvCallTool tool_name arguments])%list st1)))
  = (sleeps (trace (world st))
     ++ map (fun k => (retry_delay * inject_Z (2 ^ (Z.of_nat k - 1)))%Q)
          (seq 1 n))%list.
Proof.
  intros Hl.
  destruct (list_tools_keeps_sleeps_and_calls _ _ _ Hl) as (Hsl & _).
  cbn [world trace add_events].
  rewrite !sleeps_app, sleeps_expected_retries, Hsl. simpl.
  rewrite app_nil_r. reflexivity.
Qed.


(** X5. With a negative [retries] the loop body never runs: for a listed
    tool [execute_tool] makes no tool call, sleeps nothing and returns
    [None]. *)
Theorem execute_tool_negative_retries (st st1 : ConnState)
    (tools : list ToolEntry) (tool_name : string) (arguments : pyvalue)
    (retries : Z) (retry_delay : Q) :
  list_tools srv st = (Return tools, st1) ->
  existsb (fun tool => String.eqb (name tool) tool_name) tools = true ->
  (retries < 0)%Z ->
  execute_tool srv json_loads tool_name arguments retries retry_delay st
  = (Return PyNone, st1).
Proof.
  intros Hl Hf Hneg.
  rewrite (execute_tool_found _ _ _ _ _ _ _ _ _ Hl Hf), retry_loop_step.
  destruct (Z.leb_spec 0 retries); [lia | reflexivity].
Qed.

Lemma total_app (xs ys : list Q) :
  (total (xs ++ ys) == total xs + total ys)%Q.
Proof.
  induction xs as [|x xs IH]; simpl.
  - ring.
  - rewrite IH. ring.
Qed.





End RetryExtras.


(** X5 on a stub: [retries = -1]. *)
Lemma execute_tool_negative_retries_witness :
  execute_tool Stub.failing_server Json.loads "upload_blob" (PyDict []) (-1) 1
    (Stub.opened Stub.failing_server)
  = (Return PyNone,
     snd (list_tools Stub.failing_server (Stub.opened Stub.failing_server))).
Proof.
  apply (execute_tool_negative_retries Stub.failing_server Json.loads
           (Stub.opened Stub.failing_server) _
           (map tool_entry [Stub.upload_blob; Stub.list_blobs])
           "upload_blob" (PyDict []) (-1) 1 eq_refl eq_refl).
  reflexivity.
Defined.



(** ** Tool.validate_arguments, further *)

Section ValidateExtras.

Import Tool.

Lemma check_param_none (props : list (string * dict)) (p : string) (v : pyvalue) :
  check_param props p v = None <->
  (forall schema tag,
      properties_get p props = Some schema ->
      dict_get "type" schema = Some (PyStr tag) ->
      shape_matches tag v = true).
Proof.
  split.
  - intros Hnone schema tag Hs Ht.
    destruct (shape_matches tag v) eqn:Hm; [reflexivity|].
    rewrite (check_param_mismatch _ _ _ _ _ Hs Ht Hm) in Hnone.
    discriminate Hnone.
  - intros H. destruct (check_param props p v) as [msg|] eqn:Hc; [|reflexivity].
    destruct (check_param_some _ _ _ _ Hc) as (schema & tag & Hs & Ht & Hm & _).
    rewrite (H schema tag Hs Ht) in Hm. discriminate Hm.
Qed.

(** X8. [validate_arguments] accepts exactly the arguments that contain
    every required name and in which every value passes the runtime
    check of the type tag declared for its parameter; and its error
    message is absent exactly when it accepts. *)
Theorem validate_arguments_sound_complete (tool : Tool.t) (arguments : dict) :
  (validate_arguments tool arguments = (true, None) <->
   (forall r, In r (required_params tool) -> dict_contains r arguments = true)
   /\ (forall p v schema tag,
          In (p, v) arguments ->
          properties_get p (_properties tool) = Some schema ->
          dict_get "type" schema = Some (PyStr tag) ->
          shape_matches tag v = true))
  /\ (fst (validate_arguments tool arguments) = true <->
      snd (validate_arguments tool arguments) = None).
Proof.
  split.
  - rewrite validate_arguments_accepts, check_required_none, check_types_none.
    split; intros [Hreq Hty]; (split; [exact Hreq|]).
    + intros p v schema tag Hin. apply check_param_none, Hty, Hin.
    + intros q w Hin. apply check_param_none.
      intros schema tag. apply Hty, Hin.
  - unfold validate_arguments.
    destruct (check_required (required_params tool) arguments);
      [simpl; split; discriminate|].
    destruct (check_types (_properties tool) arguments);
      simpl; split; try discriminate; reflexivity.
Qed.

Lemma dict_contains_set_other (r p : string) (v : pyvalue) (d : dict) :
  r <> p -> dict_contains r (dict_set p v d) = dict_contains r d.
Proof.
  intros Hne. induction d as [|[k w] d IH]; simpl.
  - rewrite dict_contains_cons.
    destruct (String.eqb_spec p r) as [->|_]; [elim Hne; reflexivity | reflexivity].
  - destruct (String.eqb_spec k p) as [->|Hkp].
    + rewrite !dict_contains_cons. reflexivity.
    + rewrite !dict_contains_cons, IH. reflexivity.
Qed.

Lemma check_required_set_other (required : list string) (p : string)
    (v : pyvalue) (d : dict) :
  ~ In p required ->
  check_required required (dict_set p v d) = check_required required d.
Proof.
  induction required as [|r required IH]; simpl; intros Hp; [reflexivity|].
  rewrite dict_contains_set_other by (intros ->; apply Hp; left; reflexivity).
  rewrite IH by (intros H; apply Hp; right; exact H). reflexivity.
Qed.

Lemma check_types_set_unchecked (props : list (string * dict)) (p : string)
    (v : pyvalue) (d : dict) :
  (forall w, check_param props p w = None) ->
  check_types props (dict_set p v d) = check_types props d.
Proof.
  intros Hp. induction d as [|[k w] d IH]; simpl.
  - rewrite Hp. reflexivity.
  - destruct (String.eqb_spec k p) as [->|_]; simpl.
    + rewrite !Hp. reflexivity.
    + rewrite IH. reflexivity.
Qed.

Lemma shape_matches_other_tag (tag : string) (v : pyvalue) :
  ~ In tag ["string"; "number"; "integer"; "boolean"; "array"; "object"] ->
  shape_matches tag v = true.
Proof.
  intros Hn. unfold shape_matches.
  repeat match goal with
         | |- context [String.eqb tag ?s] =>
             destruct (String.eqb_spec tag s) as [->|_];
             [elim Hn; simpl; tauto|]
         end.
  reflexivity.
Qed.

(** X9. A parameter is never checked when the schema does not require
    it and either does not declare it, or declares it without a "type",
    or with a type that is not one of the six tags as a string: setting
    such a parameter to any value does not change the verdict or the
    message. *)
Theorem validate_arguments_ignores_unchecked (tool : Tool.t) (arguments : dict)
    (p : string) (v : pyvalue) :
  ~ In p (required_params tool) ->
  (forall schema tag,
      properties_get p (_properties tool) = Some schema ->
      dict_get "type" schema = Some (PyStr tag) ->
      ~ In tag ["string"; "number"; "integer"; "boolean"; "array"; "object"]) ->
  validate_arguments tool (dict_set p v arguments)
  = validate_arguments tool arguments.
Proof.
  intros Hreq Htag. unfold validate_arguments.
  rewrite (check_required_set_other _ _ _ _ Hreq).
  rewrite check_types_set_unchecked; [reflexivity|].
  intros w. apply check_param_none. intros schema tag Hs Ht.
  apply shape_matches_other_tag, (Htag schema tag Hs Ht).
Qed.

End ValidateExtras.

(** X9 on the upload_blob schema: an undeclared parameter. *)
Lemma validate_arguments_ignores_unchecked_witness :
  Tool.validate_arguments Stub.content_tool
    (dict_set "container" (PyInt 7) [("ttl", PyStr "soon")])
  = Tool.validate_arguments Stub.content_tool [("ttl", PyStr "soon")].
Proof.
  apply (validate_arguments_ignores_unchecked Stub.content_tool
           [("ttl", PyStr "soon")] "container" (PyInt 7)).
  - simpl. intros [H | []]. discriminate H.
  - intros schema tag Hs. discriminate Hs.
Defined.

(** ** Argument normalization, further *)

Section NormalizationExtras.

Variable json_loads : string -> option pyvalue.

Lemma dict_get_remove (k : string) (d : dict) :
  dict_get k (dict_remove k d) = None.
Proof.
  induction d as [|[k' v] d IH]; simpl; [reflexivity|].
  destruct (String.eqb k' k) eqn:E; [exact IH|].
  simpl. rewrite E. exact IH.
Qed.

(** The second stage of the adapter leaves a value alone unless it is a
    mapping with a string under kwargs. *)
Lemma second_stage_id (v : pyvalue) :
  (forall d s, v = PyDict d -> dict_get "kwargs" d <> Some (PyStr s)) ->
  match v with
  | PyDict d =>
      match dict_get "kwargs" d with
      | Some (PyStr s) =>
          if String.eqb s EmptyString then PyDict []
          else match json_loads s with
               | Some v' => v'
               | None => v
               end
      | _ => v
      end
  | _ => v
  end = v.
Proof.
  intros H. destruct v as [| | | | |l|d]; try reflexivity.
  specialize (H d).
  destruct (dict_get "kwargs" d) as [[| | | |s| |]|]; try reflexivity.
  elim (H s eq_refl). reflexivity.
Qed.

(** X10. The adapter, called with the bundle as keyword arguments, and
    the direct executor normalize a bundle to the same value whenever
    the bundle's kwargs entry is not [None] and the direct executor's
    result is not itself a mapping with a string under kwargs. They
    part on a kwargs entry that is [None]: the direct executor then
    passes [None] as the arguments, the adapter passes the other entries
    of the bundle. *)
Theorem adapter_and_direct_agree (bundle : dict) :
  (dict_get "kwargs" bundle <> Some PyNone ->
   (forall d s,
       direct_args json_loads (PyDict bundle) = PyDict d ->
       dict_get "kwargs" d <> Some (PyStr s)) ->
   call_with_keywords (tool_func_args json_loads) bundle
   = direct_args json_loads (PyDict bundle))
  /\ (dict_get "kwargs" bundle = Some PyNone ->
      direct_args json_loads (PyDict bundle) = PyNone
      /\ call_with_keywords (tool_func_args json_loads) bundle
         = PyDict (dict_remove "kwargs" bundle)).
Proof.
  split.
  - intros Hnone Hflat.
    unfold call_with_keywords, tool_func_args.
    unfold direct_args in *.
    destruct (dict_get "kwargs" bundle) as [v|] eqn:Hk.
    + destruct v as [|b|n|q|s|l|d]; try reflexivity;
        try (apply second_stage_id; exact Hflat).
      * elim Hnone. reflexivity.
      * exact (second_stage_id (PyDict d) Hflat).
    + rewrite dict_remove_absent
        by (unfold dict_contains; rewrite Hk; reflexivity).
      cbv beta zeta iota. rewrite Hk. reflexivity.
  - intros Hk. unfold call_with_keywords, tool_func_args, direct_args.
    rewrite Hk. cbv beta zeta iota. rewrite dict_get_remove.
    split; reflexivity.
Qed.

(** X11. The adapter decodes a second level and the direct executor
    does not: when the kwargs string decodes to a mapping that again has
    a non-empty string under kwargs, the adapter passes what that inner
    string decodes to, and the direct executor passes the mapping. *)
Theorem adapter_unwraps_twice (s s2 : string) (d : dict) (v : pyvalue) :
  s <> EmptyString ->
  json_loads s = Some (PyDict d) ->
  dict_get "kwargs" d = Some (PyStr s2) ->
  s2 <> EmptyString ->
  json_loads s2 = Some v ->
  call_with_keywords (tool_func_args json_loads) [("kwargs", PyStr s)] = v
  /\ direct_args json_loads (PyDict [("kwargs", PyStr s)]) = PyDict d.
Proof.
  intros Hs Hj Hk Hs2 Hj2.
  unfold call_with_keywords, tool_func_args, direct_args. simpl.
  destruct (String.eqb_spec s EmptyString) as [->|_]; [elim Hs; reflexivity|].
  rewrite Hj. cbv beta zeta iota. rewrite Hk.
  destruct (String.eqb_spec s2 EmptyString) as [->|_]; [elim Hs2; reflexivity|].
  rewrite Hj2. split; reflexivity.
Qed.

End NormalizationExtras.

(** X10 on two bundles: a flat one, and one whose kwargs is [None]. *)
Lemma adapter_and_direct_agree_witness :
  call_with_keywords (tool_func_args Json.loads)
    [("container", PyStr "news"); ("kwargs", PyDict [("a", PyInt 1)])]
  = direct_args Json.loads
      (PyDict [("container", PyStr "news"); ("kwargs", PyDict [("a", PyInt 1)])])
  /\ direct_args Json.loads (PyDict [("kwargs", PyNone); ("a", PyInt 1)]) = PyNone
  /\ call_with_keywords (tool_func_args Json.loads)
       [("kwargs", PyNone); ("a", PyInt 1)] = PyDict [("a", PyInt 1)].
Proof.
  split.
  - apply (proj1 (adapter_and_direct_agree Json.loads
                    [("container", PyStr "news");
                     ("kwargs", PyDict [("a", PyInt 1)])])).
    + discriminate.
    + intros d s H. injection H as <-. discriminate.
  - apply (proj2 (adapter_and_direct_agree Json.loads
                    [("kwargs", PyNone); ("a", PyInt 1)])).
    reflexivity.
Defined.

(** X11 with the reference decoder: kwargs holds the text
    [{"kwargs":"[1]"}]. *)
Lemma adapter_unwraps_twice_witness :
  let s := "{" ++ Stub.quote ++ "kwargs" ++ Stub.quote ++ ":"
           ++ Stub.quote ++ "[1]" ++ Stub.quote ++ "}" in
  call_with_keywords (tool_func_args Json.loads) [("kwargs", PyStr s)]
  = PyList [PyInt 1]
  /\ direct_args Json.loads (PyDict [("kwargs", PyStr s)])
     = PyDict [("kwargs", PyStr "[1]")].
Proof.
  cbv zeta.
  apply (adapter_unwraps_twice Json.loads _ "[1]" [("kwargs", PyStr "[1]")]
           (PyList [PyInt 1])).
  - discriminate.
  - vm_compute. reflexivity.
  - reflexivity.
  - discriminate.
  - vm_compute. reflexivity.
Defined.

(** ** The tool cache and the callers of the connection *)

Section CacheExtras.

Variable json_loads : string -> option pyvalue.

(** X12. Once a listing has returned, the connection answers from its
    cache whatever the server would list now: on any other server
    behaviour [list_tools] returns the same sequence without a request,
    and [execute_tool] refuses a tool that is not in the cached listing
    without a listing request or a tool call, even if the server has it
    by now. *)
Theorem list_tools_cache_is_stale (srv srv' : Server) (st st1 : ConnState)
    (tools : list ToolEntry) :
  list_tools srv st = (Return tools, st1) ->
  list_tools srv' st1 = (Return tools, st1)
  /\ (forall tool_name arguments retries retry_delay,
         (forall tool, In tool tools -> name tool <> tool_name) ->
         execute_tool srv' json_loads tool_name arguments retries retry_delay st1
         = (Raise (Exn ValueError
                     ("Tool '" ++ tool_name ++ "' not found on MCP server") None),
            st1)).
Proof.
  intros Hl.
  destruct (list_tools_returns _ _ _ _ Hl) as (Hs & Hsome & Hc & _).
  assert (Hl' : list_tools srv' st1 = (Return tools, st1)).
  { destruct (session (self st1)) as [s|] eqn:Hs1; [|congruence].
    apply (list_tools_cached srv' st1 s tools Hs1 Hc). }
  split; [exact Hl'|].
  intros tool_name arguments retries retry_delay Hnot.
  apply (execute_tool_not_found srv' json_loads st1 st1 tools); [exact Hl'|].
  destruct (existsb _ tools) eqn:Ex; [|reflexivity].
  apply existsb_exists in Ex as (tool & Hin & Heq).
  apply String.eqb_eq in Heq. elim (Hnot tool Hin Heq).
Qed.

End CacheExtras.

(** X12 on stubs: listed on a server with two tools, then asked on a
    server that lists none. *)
Lemma list_tools_cache_is_stale_witness :
  let st1 := snd (list_tools Stub.healthy (Stub.opened Stub.healthy)) in
  let srv' := {| handshake := fun _ => Stub.clean_handshake;
                 list_tools_response := fun _ => Return [];
                 call_tool_response := fun _ _ _ => Raise Stub.reset |} in
  list_tools srv' st1
  = (Return (map tool_entry [Stub.upload_blob; Stub.list_blobs]), st1).
Proof.
  cbv zeta.
  apply (proj1 (list_tools_cache_is_stale Json.loads Stub.healthy _
                  (Stub.opened Stub.healthy) _ _ eq_refl)).
Defined.

Lemma fold_add_key_spec (names : list string) :
  forall keys,
    NoDup keys ->
    NoDup (fold_left Agent.add_key names keys)
    /\ (forall k, In k (fold_left Agent.add_key names keys)
                  <-> In k keys \/ In k names).
Proof.
  induction names as [|a names IH]; intros keys Hnd; simpl.
  - split; [exact Hnd|]. intros k. tauto.
  - assert (Hstep : NoDup (Agent.add_key keys a)
                    /\ forall k, In k (Agent.add_key keys a)
                                 <-> In k keys \/ k = a).
    { unfold Agent.add_key. destruct (existsb (String.eqb a) keys) eqn:Ex.
      - split; [exact Hnd|]. intros k. split; [tauto|].
        intros [H | ->]; [exact H|].
        apply existsb_exists in Ex as (x & Hx & Heq).
        apply String.eqb_eq in Heq. subst x. exact Hx.
      - split.
        + apply NoDup_app; [exact Hnd | constructor; [intros []|constructor] |].
          intros x Hx [<-|[]].
          assert (existsb (String.eqb a) keys = true)
            by (apply existsb_exists; exists a; split;
                [exact Hx | apply String.eqb_refl]).
          congruence.
        + intros k. rewrite in_app_iff. simpl. intuition. }
    destruct Hstep as (Hnd' & Hin').
    destruct (IH _ Hnd') as (H1 & H2). split; [exact H1|].
    intros k. rewrite H2, Hin'. intuition.
Qed.

Section CallerExtras.

Variable srv : Server.
Variable json_loads : string -> option pyvalue.
Variable json_dumps : pyvalue -> string.
Variable py_str : pyvalue -> string.
Variable mcp_server_url : string.

(** Every run of [fetch_tools]: one connection attempt, then at most one
    listing request, and the registry untouched. *)
Lemma fetch_tools_run (w : World) :
  let h := handshake_ok (handshake srv (count is_connect (trace w))) in
  exists o w',
    fetch_tools srv mcp_server_url w = (o, w')
    /\ mcp_tool_names w' = mcp_tool_names w
    /\ trace w' = (trace w ++ EvConnect :: (if h then [EvListTools] else []))%list
    /\ o = (if h
            then match list_tools_response srv (count is_list_tools (trace w)) with
                 | Return ts => Return (map tool_entry ts)
                 | Raise e => Raise e
                 end
            else Raise (Exn RuntimeError "Not connected to MCP server" None)).
Proof.
  intros h. subst h. unfold fetch_tools, with_new_connection.
  set (st0 := {| world := w; self := ServerConnection_init mcp_server_url |}).
  destruct (handshake_ok (handshake srv (count is_connect (trace w)))) eqn:Hh.
  - unfold bind at 1. rewrite (connect_ok srv st0 Hh).
    unfold bind at 1. erewrite list_tools_fetch; [|reflexivity|reflexivity].
    cbn [world]. rewrite (count_add_connect is_list_tools st0 eq_refl).
    change (world st0) with w.
    destruct (list_tools_response srv (count is_list_tools (trace w))) as [ts|e].
    + unfold bind.
      match goal with
      | |- context [cleanup ?st] =>
          destruct (cleanup_returns st) as (c & -> & _)
      end.
      eexists _, _. split; [reflexivity|]. simpl.
      rewrite <- app_assoc. repeat split.
    + eexists _, _. split; [reflexivity|]. simpl.
      rewrite <- app_assoc. repeat split.
  - unfold bind at 1. rewrite (connect_failed srv st0 eq_refl eq_refl eq_refl Hh).
    unfold bind at 1. rewrite list_tools_not_connected; [|reflexivity].
    eexists _, _. split; [reflexivity|]. simpl. repeat split.
Qed.

(** X13. [create_mcp_functions] never raises. It makes one connection
    attempt, at most one listing request and no tool call, and when it
    returns the registry read by [is_mcp_function] holds exactly the
    names of the adapters it returned, in the same order. *)
Theorem create_mcp_functions_returns (w : World) :
  exists names w',
    create_mcp_functions srv mcp_server_url w = (Return names, w')
    /\ mcp_tool_names w' = names
    /\ count is_connect (trace w') = (count is_connect (trace w) + 1)%nat
    /\ (count is_list_tools (trace w') <= count is_list_tools (trace w) + 1)%nat
    /\ count is_call_tool (trace w') = count is_call_tool (trace w).
Proof.
  destruct (fetch_tools_run {| trace := trace w; mcp_tool_names := [] |})
    as (o & w1 & Hf & Hn & Htr & _).
  cbn [trace mcp_tool_names] in Hn, Htr.
  assert (Hcounts :
            count is_connect (trace w1) = (count is_connect (trace w) + 1)%nat
            /\ (count is_list_tools (trace w1)
                <= count is_list_tools (trace w) + 1)%nat
            /\ count is_call_tool (trace w1) = count is_call_tool (trace w)).
  { rewrite Htr, !count_app.
    clear. destruct (handshake_ok _); unfold count; simpl; lia. }
  unfold create_mcp_functions, bind at 1, set_mcp_tool_names at 1.
  unfold bind at 1, try_except, bind at 1. rewrite Hf.
  destruct o as [tools|e].
  - unfold bind, set_mcp_tool_names, ret.
    eexists _, _. split; [reflexivity|]. split; [reflexivity|]. exact Hcounts.
  - unfold ret. eexists _, _. split; [reflexivity|].
    split; [exact Hn | exact Hcounts].
Qed.

(** X14. The agent bootstrap does not degrade: when the connection
    cannot be opened, building [functions_dict] raises the not-connected
    error. When discovery succeeds, [functions_dict] has one key for
    each distinct tool name listed, without repetition. *)
Theorem agent_functions_dict (w : World) :
  (handshake_ok (handshake srv (count is_connect (trace w))) = false ->
   exists w',
     Agent.functions_dict srv mcp_server_url w
     = (Raise (Exn RuntimeError "Not connected to MCP server" None), w'))
  /\ (forall ts,
         handshake_ok (handshake srv (count is_connect (trace w))) = true ->
         list_tools_response srv (count is_list_tools (trace w)) = Return ts ->
         exists keys w',
           Agent.functions_dict srv mcp_server_url w = (Return keys, w')
           /\ NoDup keys
           /\ forall k, In k keys <-> In k (map tool_name ts)).
Proof.
  destruct (fetch_tools_run w) as (o & w1 & Hf & _ & _ & Ho).
  cbv zeta in Ho.
  split.
  - intros Hh. rewrite Hh in Ho. subst o.
    unfold Agent.functions_dict, bind.
    change (Agent.fetch_tools srv mcp_server_url)
      with (fetch_tools srv mcp_server_url).
    rewrite Hf. eexists. reflexivity.
  - intros ts Hh Hl. rewrite Hh, Hl in Ho. subst o.
    unfold Agent.functions_dict, bind.
    change (Agent.fetch_tools srv mcp_server_url)
      with (fetch_tools srv mcp_server_url).
    rewrite Hf. unfold ret.
    destruct (fold_add_key_spec (map name (map tool_entry ts)) [] (NoDup_nil _))
      as (Hnd & Hin).
    eexists _, _. split; [reflexivity|]. split; [exact Hnd|].
    intros k. rewrite Hin, map_map. simpl.
    split; [intros [[] | H]; exact H | intros H; right; exact H].
Qed.


(** X15. For a flat bundle without a kwargs entry, the adapter of
    mcp_tools.py does what the function built in agent.py does with the
    same keyword arguments, in the same world, and differs only in
    rendering a mapping result with [json.dumps]. *)
Theorem adapter_extends_agent_tool_func (name : string) (bundle : dict)
    (w : World) :
  dict_contains "kwargs" bundle = false ->
  call_with_keywords (tool_func srv json_loads json_dumps mcp_server_url name)
    bundle w
  = match Agent.tool_func srv json_loads mcp_server_url name bundle w with
    | (Return r, w') =>
        (Return (if isinstance_dict r then PyStr (json_dumps r) else r), w')
    | (Raise e, w') => (Raise e, w')
    end.
Proof.
  intros Hk. unfold call_with_keywords, tool_func, tool_func_args.
  rewrite (dict_get_absent _ _ Hk), (dict_remove_absent _ _ Hk).
  cbv beta zeta iota. rewrite (dict_get_absent _ _ Hk).
  unfold call_tool, Agent.tool_func, with_new_connection, bind.
  destruct (connect srv _) as [[b|e] st1]; [|reflexivity].
  destruct (execute_tool srv json_loads name (PyDict bundle) 3 1 st1)
    as [[r|e] st2]; [|reflexivity].
  destruct (cleanup_returns st2) as (c & -> & _).
  unfold ret. cbn [fst snd world].
  destruct (isinstance_dict r); reflexivity.
Qed.

Lemma execute_mcp_tool_async_unreachable (function_name : string)
    (arguments : pyvalue) (w : World) :
  handshake_ok (handshake srv (count is_connect (trace w))) = false ->
  execute_mcp_tool_async srv json_loads json_dumps py_str mcp_server_url
    function_name arguments w
  = (Raise (Exn RuntimeError "Not connected to MCP server" None),
     {| trace := (trace w ++ [EvConnect])%list;
        mcp_tool_names := mcp_tool_names w |}).
Proof.
  intros Hh.
  unfold execute_mcp_tool_async, bind at 1, execute_mcp_tool_directly,
    with_new_connection.
  unfold bind at 1. rewrite connect_failed; [|reflexivity|reflexivity|reflexivity|exact Hh].
  reflexivity.
Qed.

Lemma execute_mcp_tool_async_unknown (function_name : string)
    (arguments : pyvalue) (w : World) (ts : list RemoteTool) :
  handshake_ok (handshake srv (count is_connect (trace w))) = true ->
  list_tools_response srv (count is_list_tools (trace w)) = Return ts ->
  (forall t, In t ts -> tool_name t <> function_name) ->
  execute_mcp_tool_async srv json_loads json_dumps py_str mcp_server_url
    function_name arguments w
  = (Raise (Exn ValueError
              ("Tool '" ++ function_name ++ "' not found on MCP server") None),
     {| trace := (trace w ++ [EvConnect; EvListTools])%list;
        mcp_tool_names := mcp_tool_names w |}).
Proof.
  intros Hh Hl Hnot.
  unfold execute_mcp_tool_async, bind at 1, execute_mcp_tool_directly,
    with_new_connection.
  set (st0 := {| world := w; self := ServerConnection_init mcp_server_url |}).
  unfold bind at 1. rewrite (connect_ok srv st0 Hh).
  unfold bind at 1.
  assert (Hex : existsb (fun tool => String.eqb (name tool) function_name)
                  (map tool_entry ts) = false).
  { destruct (existsb _ (map tool_entry ts)) eqn:Ex; [|reflexivity].
    apply existsb_exists in Ex as (tool & Hin & Heq).
    apply in_map_iff in Hin as (t & <- & Ht).
    apply String.eqb_eq in Heq. elim (Hnot t Ht Heq). }
  match goal with
  | |- context [execute_tool _ _ _ _ _ _ ?ST] =>
      pose proof (list_tools_fetch srv ST {| session_no := count is_connect (trace (world st0)) |}
                    eq_refl eq_refl) as Hlist
  end.
  cbn [world] in Hlist.
  rewrite (count_add_connect is_list_tools st0 eq_refl) in Hlist.
  change (world st0) with w in Hlist. rewrite Hl in Hlist.
  rewrite (execute_tool_not_found _ _ _ _ _ _ _ _ _ Hlist Hex).
  simpl. rewrite <- app_assoc. reflexivity.
Qed.

(** X16. What the bot branch does when the call cannot be made. Its
    handler reads [traceback] before it builds the output. Where an
    earlier tool call of the turn has bound that name, the output is the
    JSON rendering of the mapping error = "Failed to execute NAME: Not
    connected to MCP server" if the server cannot be reached, and of
    error = "Failed to execute NAME: Tool 'NAME' not found on MCP
    server" if the server is reached but does not list the tool. Where
    the name is not bound yet, the branch yields no output: it raises
    [UnboundLocalError]. In all four cases no tool call is made. *)
Theorem bot_error_marker (traceback_bound : bool) (function_name : string)
    (arguments : dict) (w : World) :
  let run := on_message_activity_direct srv json_loads json_dumps py_str
               mcp_server_url traceback_bound function_name arguments w in
  let handled (reason : string) : Outcome string :=
    if traceback_bound then
      Return (json_dumps
                (PyDict [("error",
                          PyStr ("Failed to execute " ++ function_name
                                 ++ ": " ++ reason))]))
    else
      Raise (Exn UnboundLocalError
               "cannot access local variable 'traceback' where it is not associated with a value"
               None) in
  (handshake_ok (handshake srv (count is_connect (trace w))) = false ->
   fst run = handled "Not connected to MCP server"
   /\ count is_call_tool (trace (snd run)) = count is_call_tool (trace w))
  /\ (forall ts,
         handshake_ok (handshake srv (count is_connect (trace w))) = true ->
         list_tools_response srv (count is_list_tools (trace w)) = Return ts ->
         (forall t, In t ts -> tool_name t <> function_name) ->
         fst run
         = handled ("Tool '" ++ function_name ++ "' not found on MCP server")
         /\ count is_call_tool (trace (snd run)) = count is_call_tool (trace w)).
Proof.
  intros run handled. subst run handled.
  unfold on_message_activity_direct, try_except.
  split.
  - intros Hh. rewrite execute_mcp_tool_async_unreachable; [|exact Hh].
    destruct traceback_bound; unfold ret, raise; cbn [fst snd trace];
      (split; [reflexivity|]); rewrite count_app; apply Nat.add_0_r.
  - intros ts Hh Hl Hnot.
    rewrite (execute_mcp_tool_async_unknown _ _ _ ts Hh Hl Hnot).
    destruct traceback_bound; unfold ret, raise; cbn [fst snd trace];
      (split; [reflexivity|]); rewrite count_app; apply Nat.add_0_r.
Qed.

Lemma dict_contains_set_same (k : string) (v : pyvalue) (d : dict) :
  dict_contains k (dict_set k v d) = true.
Proof.
  induction d as [|[k' w'] d IH]; simpl.
  - rewrite dict_contains_cons, String.eqb_refl. reflexivity.
  - destruct (String.eqb k' k) eqn:E.
    + rewrite dict_contains_cons, String.eqb_refl. reflexivity.
    + rewrite dict_contains_cons, E. exact IH.
Qed.

(** X17. For upload_blob without a content argument the bot branch
    behaves as if the caller had set content itself: to the value of
    text when there is one, otherwise to the value of value when there
    is one. *)
Theorem upload_blob_content_alias (traceback_bound : bool) (arguments : dict)
    (v : pyvalue) (w : World) :
  dict_contains "content" arguments = false ->
  dict_get "text" arguments = Some v
  \/ (dict_get "text" arguments = None /\ dict_get "value" arguments = Some v) ->
  on_message_activity_direct srv json_loads json_dumps py_str mcp_server_url
    traceback_bound "upload_blob" arguments w
  = on_message_activity_direct srv json_loads json_dumps py_str mcp_server_url
      traceback_bound "upload_blob" (dict_set "content" v arguments) w.
Proof.
  intros Hc Hv. unfold on_message_activity_direct.
  rewrite Hc, dict_contains_set_same. cbn [String.eqb Ascii.eqb Bool.eqb andb negb].
  destruct Hv as [-> | [-> ->]]; reflexivity.
Qed.


Lemma count_other_expected_retries (p : Event -> bool) (tool_name : string)
    (arguments : pyvalue) (retry_delay : Q) (n : nat) :
  (forall t a, p (EvCallTool t a) = false) ->
  (forall d, p (EvSleep d) = false) ->
  forall k,
    count p (expected_retries tool_name arguments retry_delay k n
             ++ [EvCallTool tool_name arguments])%list = 0%nat.
Proof.
  intros Hc Hs. induction n as [|n IH]; intros k.
  - unfold count. simpl. rewrite Hc. reflexivity.
  - specialize (IH (S k)). unfold count in *. simpl. rewrite Hc, Hs. exact IH.
Qed.

(** What [execute_tool] with the default [retries = 3] leaves behind:
    the connection object of the listing, and the events of the run. *)
Lemma execute_tool_default_run (tool_name : string) (arguments : pyvalue)
    (st st2 : ConnState) (o : Outcome pyvalue) :
  execute_tool srv json_loads tool_name arguments 3 1 st = (o, st2) ->
  (exists e, o = Raise e
             /\ session (self st2) = session (self st)
             /\ exit_stack (self st2) = exit_stack (self st)
             /\ connected (self st2) = connected (self st))
  \/ (exists v tools st1 n,
         o = Return v
         /\ list_tools srv st = (Return tools, st1)
         /\ (n <= 3)%nat
         /\ st2 = add_events
                    (expected_retries tool_name arguments 1 1 n
                     ++ [EvCallTool tool_name arguments])%list st1).
Proof.
  intros Hrun.
  destruct (list_tools srv st) as [[tools|e] st1] eqn:Hl.
  - destruct (list_tools_returns _ _ _ _ Hl) as (Hs & _ & _ & Hst).
    assert (Hframe : session (self st1) = session (self st)
                     /\ exit_stack (self st1) = exit_stack (self st)
                     /\ connected (self st1) = connected (self st)).
    { split; [exact Hs|].
      destruct (session (self st)) as [s|] eqn:Hses.
      - destruct (_tools_cache (self st)) as [cache|] eqn:Hc.
        + rewrite (list_tools_cached srv st s cache Hses Hc) in Hl.
          injection Hl as _ <-. split; reflexivity.
        + rewrite (list_tools_fetch srv st s Hses Hc) in Hl.
          destruct (list_tools_response srv _); [|discriminate Hl].
          injection Hl as _ <-. split; reflexivity.
      - rewrite (list_tools_not_connected srv st Hses) in Hl. discriminate Hl. }
    destruct (existsb (fun tool => String.eqb (name tool) tool_name) tools) eqn:Hf.
    + destruct (execute_tool_run srv json_loads st st1 tools tool_name arguments
                  3 1 Hl Hf ltac:(lia)) as (n & o' & Hn & Hrun' & Hend).
      change (Z.of_nat 3) with 3%Z in Hrun'. rewrite Hrun' in Hrun.
      injection Hrun as <- <-.
      destruct Hend as [(v & -> & _) | (e & _ & -> & _)].
      * right. exists v, tools, st1, n. repeat split; trivial.
      * left. eexists. split; [reflexivity|]. exact Hframe.
    + rewrite (execute_tool_not_found srv json_loads st st1 tools tool_name
                 arguments 3 1 Hl Hf) in Hrun.
      injection Hrun as <- <-. left. eexists. split; [reflexivity|]. exact Hframe.
  - left. unfold execute_tool, bind, get_self in Hrun.
    destruct (session (self st)) as [s|] eqn:Hses.
    + rewrite Hl in Hrun. injection Hrun as <- <-.
      exists e. split; [reflexivity|].
      destruct (_tools_cache (self st)) as [cache|] eqn:Hc.
      * rewrite (list_tools_cached srv st s cache Hses Hc) in Hl. discriminate Hl.
      * rewrite (list_tools_fetch srv st s Hses Hc) in Hl.
        destruct (list_tools_response srv _); [discriminate Hl|].
        injection Hl as _ <-. simpl. rewrite Hses. repeat split.
    + unfold raise in Hrun. injection Hrun as <- <-.
      eexists. split; [reflexivity|]. rewrite Hses. repeat split.
Qed.

(** X18. Each call of an adapter works on a connection of its own: a
    call of [tool_func] that returns has made exactly one connection
    attempt and exactly one listing request (no cache is shared between
    calls), and between one and four tool calls. *)
Theorem tool_func_uses_own_connection (name : string) (kwargs : pyvalue)
    (args : dict) (w w' : World) (v : pyvalue) :
  tool_func srv json_loads json_dumps mcp_server_url name kwargs args w
  = (Return v, w') ->
  count is_connect (trace w') = (count is_connect (trace w) + 1)%nat
  /\ count is_list_tools (trace w') = (count is_list_tools (trace w) + 1)%nat
  /\ (count is_call_tool (trace w) + 1 <= count is_call_tool (trace w')
      <= count is_call_tool (trace w) + 4)%nat.
Proof.
  unfold tool_func, call_tool, with_new_connection.
  set (a := tool_func_args json_loads kwargs args).
  set (st0 := {| world := w; self := ServerConnection_init mcp_server_url |}).
  unfold bind at 1.
  destruct (handshake_ok (handshake srv (count is_connect (trace w)))) eqn:Hh.
  - rewrite (connect_ok srv st0 Hh). unfold bind at 1.
    match goal with
    | |- context [execute_tool _ _ _ _ _ _ ?ST] => set (st1 := ST)
    end.
    destruct (execute_tool srv json_loads name a 3 1 st1) as [o st2] eqn:Hrun.
    destruct (execute_tool_default_run _ _ _ _ _ Hrun)
      as [(e & -> & _) | (r & tools & st1' & n & -> & Hl & Hn & ->)];
      [discriminate|].
    unfold bind.
    match goal with
    | |- context [cleanup ?st] => destruct (cleanup_returns st) as (c & -> & _)
    end.
    assert (Hst1' : trace (world st1') = (trace w ++ [EvConnect; EvListTools])%list).
    { rewrite (list_tools_fetch srv st1 {| session_no := count is_connect (trace w) |}
                 eq_refl eq_refl) in Hl.
      destruct (list_tools_response srv _); [|discriminate Hl].
      injection Hl as _ <-. simpl. rewrite <- app_assoc. reflexivity. }
    intros Hret.
    assert (Hw' : trace w'
                  = ((trace w ++ [EvConnect; EvListTools])
                     ++ (expected_retries name a 1 1 n ++ [EvCallTool name a]))%list).
    { destruct (isinstance_dict r); injection Hret as _ <-;
        simpl; rewrite Hst1'; reflexivity. }
    rewrite Hw'. rewrite !(count_app _ (trace w ++ _)), !(count_app _ (trace w)).
    rewrite (count_other_expected_retries is_connect)
      by (intros; reflexivity).
    rewrite (count_other_expected_retries is_list_tools)
      by (intros; reflexivity).
    rewrite (count_app is_call_tool (expected_retries _ _ _ _ _)),
      count_calls_expected_retries.
    change (count is_connect [EvConnect; EvListTools]) with 1%nat.
    change (count is_list_tools [EvConnect; EvListTools]) with 1%nat.
    change (count is_call_tool [EvConnect; EvListTools]) with 0%nat.
    change (count is_call_tool [EvCallTool name a]) with 1%nat.
    clear - Hn. lia.
  - rewrite (connect_failed srv st0 eq_refl eq_refl eq_refl Hh). unfold bind at 1.
    unfold execute_tool, bind, get_self. simpl. discriminate.
Qed.

(** X19. The direct executor releases the transport only on success: on
    a connection that was opened, when [execute_tool] raises (unknown
    tool, retries exhausted, failed listing), the steps of
    [execute_mcp_tool_directly] end with that error while the connection
    object is still connected and its two entered contexts are still on
    the exit stack; [cleanup] has not run. *)
Theorem direct_executor_skips_cleanup_on_error (function_name : string)
    (args_to_use : pyvalue) (w : World) (e : exn) (st2 : ConnState) :
  handshake_ok (handshake srv (count is_connect (trace w))) = true ->
  (connect srv ;;
   result <- execute_tool srv json_loads function_name args_to_use 3 1 ;;
   cleanup ;;
   ret result)
    {| world := w; self := ServerConnection_init mcp_server_url |}
  = (Raise e, st2) ->
  connected (self st2) = true
  /\ session (self st2) <> None
  /\ List.length (exit_stack (self st2)) = 2%nat.
Proof.
  intros Hh.
  set (st0 := {| world := w; self := ServerConnection_init mcp_server_url |}).
  unfold bind at 1. rewrite (connect_ok srv st0 Hh). unfold bind at 1.
  match goal with
  | |- context [execute_tool _ _ _ _ _ _ ?ST] => set (st1 := ST)
  end.
  destruct (execute_tool srv json_loads function_name args_to_use 3 1 st1)
    as [o st2'] eqn:Hrun.
  destruct (execute_tool_default_run _ _ _ _ _ Hrun)
    as [(e' & -> & Hs & He & Hc) | (r & tools & st1' & n & -> & _)].
  - intros [= <- <-]. rewrite Hs, He, Hc. simpl.
    repeat split; discriminate.
  - unfold bind.
    match goal with
    | |- context [cleanup ?st] => destruct (cleanup_returns st) as (c & -> & _)
    end.
    discriminate.
Qed.

End CallerExtras.

(** X14 on stubs: an unreachable server, and a server that lists
    upload_blob twice. *)
Lemma agent_functions_dict_witness :
  (exists w',
      Agent.functions_dict Stub.unreachable Stub.url initial_world
      = (Raise (Exn RuntimeError "Not connected to MCP server" None), w'))
  /\ (let srv := {| handshake := fun _ => Stub.clean_handshake;
                    list_tools_response := fun _ =>
                      Return [Stub.upload_blob; Stub.list_blobs; Stub.upload_blob];
                    call_tool_response := fun _ _ _ => Raise Stub.reset |} in
      exists keys w',
        Agent.functions_dict srv Stub.url initial_world = (Return keys, w')
        /\ NoDup keys
        /\ forall k, In k keys
                     <-> In k ["upload_blob"; "list_blobs"; "upload_blob"]).
Proof.
  split.
  - apply (proj1 (agent_functions_dict Stub.unreachable Stub.url initial_world)).
    reflexivity.
  - cbv zeta.
    apply (proj2 (agent_functions_dict
                    {| handshake := fun _ => Stub.clean_handshake;
                       list_tools_response := fun _ =>
                         Return [Stub.upload_blob; Stub.list_blobs; Stub.upload_blob];
                       call_tool_response := fun _ _ _ => Raise Stub.reset |}
                    Stub.url initial_world)
             [Stub.upload_blob; Stub.list_blobs; Stub.upload_blob]);
      reflexivity.
Defined.

(** X15 on a stub: a flat bundle. *)
Lemma adapter_extends_agent_tool_func_witness :
  call_with_keywords
    (tool_func Stub.healthy Json.loads Stub.dumps Stub.url "upload_blob")
    [("content", PyStr "x")] initial_world
  = match Agent.tool_func Stub.healthy Json.loads Stub.url "upload_blob"
            [("content", PyStr "x")] initial_world with
    | (Return r, w') =>
        (Return (if isinstance_dict r then PyStr (Stub.dumps r) else r), w')
    | (Raise e, w') => (Raise e, w')
    end.
Proof.
  apply (adapter_extends_agent_tool_func Stub.healthy Json.loads Stub.dumps
           Stub.url "upload_blob" [("content", PyStr "x")] initial_world).
  reflexivity.
Defined.

(** X16 on stubs: an unreachable server with [traceback] bound, and a
    tool the server does not list with [traceback] not bound yet. *)
Lemma bot_error_marker_witness :
  fst (on_message_activity_direct Stub.unreachable Json.loads Stub.dumps
         Stub.str Stub.url true "upload_blob" [("content", PyStr "x")]
         initial_world)
  = Return (Stub.dumps
              (PyDict [("error",
                        PyStr "Failed to execute upload_blob: Not connected to MCP server")]))
  /\ fst (on_message_activity_direct Stub.healthy Json.loads Stub.dumps
            Stub.str Stub.url false "delete_blob" [("name", PyStr "x")]
            initial_world)
     = Raise (Exn UnboundLocalError
                "cannot access local variable 'traceback' where it is not associated with a value"
                None).
Proof.
  split.
  - apply (proj1 (bot_error_marker Stub.unreachable Json.loads Stub.dumps
                    Stub.str Stub.url true "upload_blob"
                    [("content", PyStr "x")] initial_world)).
    reflexivity.
  - apply (proj2 (bot_error_marker Stub.healthy Json.loads Stub.dumps
                    Stub.str Stub.url false "delete_blob"
                    [("name", PyStr "x")] initial_world)
             [Stub.upload_blob; Stub.list_blobs]).
    + reflexivity.
    + reflexivity.
    + intros t [<- | [<- | []]]; discriminate.
Defined.

(** X17 on a stub: text is used although value is present too. *)
Lemma upload_blob_content_alias_witness :
  on_message_activity_direct Stub.healthy Json.loads Stub.dumps Stub.str
    Stub.url true "upload_blob"
    [("value", PyStr "old"); ("text", PyStr "news")] initial_world
  = on_message_activity_direct Stub.healthy Json.loads Stub.dumps Stub.str
      Stub.url true "upload_blob"
      [("value", PyStr "old"); ("text", PyStr "news"); ("content", PyStr "news")]
      initial_world.
Proof.
  apply (upload_blob_content_alias Stub.healthy Json.loads Stub.dumps Stub.str
           Stub.url true [("value", PyStr "old"); ("text", PyStr "news")]
           (PyStr "news") initial_world).
  - reflexivity.
  - left. reflexivity.
Defined.

(** X18 on a stub that fails two calls and then answers. *)
Lemma tool_func_uses_own_connection_witness :
  let w' := snd (tool_func Stub.flaky Json.loads Stub.dumps Stub.url
                   "upload_blob" PyNone [("content", PyStr "x")] initial_world) in
  count is_connect (trace w') = 1%nat
  /\ count is_list_tools (trace w') = 1%nat
  /\ (1 <= count is_call_tool (trace w') <= 4)%nat.
Proof.
  cbv zeta.
  apply (tool_func_uses_own_connection Stub.flaky Json.loads Stub.dumps
           Stub.url "upload_blob" PyNone [("content", PyStr "x")] initial_world
           _ (PyStr (Stub.dumps (PyDict [("a", PyInt 1)])))).
  vm_compute. reflexivity.
Defined.

(** X19 on a stub whose calls all fail. *)
Lemma direct_executor_skips_cleanup_on_error_witness :
  let st2 :=
    snd ((connect Stub.failing_server ;;
          result <- execute_tool Stub.failing_server Json.loads "upload_blob"
                      (PyDict []) 3 1 ;;
          cleanup ;;
          ret result) Stub.fresh) in
  connected (self st2) = true
  /\ session (self st2) <> None
  /\ List.length (exit_stack (self st2)) = 2%nat.
Proof.
  cbv zeta.
  apply (direct_executor_skips_cleanup_on_error Stub.failing_server Json.loads
           Stub.url "upload_blob" (PyDict []) initial_world
           (execution_failed "upload_blob"
              (Exn ConnectionError "connection reset 3" None))).
  - reflexivity.
  - vm_compute. reflexivity.
Defined.

Section BoundExtras.

Variable srv : Server.
Variable json_loads : string -> option pyvalue.
Variable json_dumps : pyvalue -> string.
Variable py_str : pyvalue -> string.
Variable mcp_server_url : string.

(** With the defaults [retries = 3] and [retry_delay = 1], one call of
    [execute_tool] makes at most four tool calls and sleeps at most 7. *)
Lemma execute_tool_default_bound (tool_name : string) (arguments : pyvalue)
    (st st2 : ConnState) (o : Outcome pyvalue) :
  execute_tool srv json_loads tool_name arguments 3 1 st = (o, st2) ->
  exists slept,
    sleeps (trace (world st2)) = (sleeps (trace (world st)) ++ slept)%list
    /\ (total slept <= 7)%Q
    /\ (count is_call_tool (trace (world st2))
        <= count is_call_tool (trace (world st)) + 4)%nat
    /\ count is_connect (trace (world st2)) = count is_connect (trace (world st)).
Proof.
  intros Hrun.
  assert (Hnil : forall st',
             sleeps (trace (world st')) = sleeps (trace (world st)) ->
             count is_call_tool (trace (world st'))
             = count is_call_tool (trace (world st)) ->
             count is_connect (trace (world st'))
             = count is_connect (trace (world st)) ->
             exists slept,
               sleeps (trace (world st'))
               = (sleeps (trace (world st)) ++ slept)%list
               /\ (total slept <= 7)%Q
               /\ (count is_call_tool (trace (world st'))
                   <= count is_call_tool (trace (world st)) + 4)%nat
               /\ count is_connect (trace (world st'))
                  = count is_connect (trace (world st))).
  { intros st' Hs Hc Hk. exists []. rewrite app_nil_r, Hc.
    split; [exact Hs|]. split; [discriminate|].
    split; [apply Nat.le_add_r | exact Hk]. }
  assert (Hlist : forall tools st1,
             list_tools srv st = (Return tools, st1) ->
             count is_connect (trace (world st1))
             = count is_connect (trace (world st))).
  { intros tools st1 Hl.
    destruct (list_tools_returns srv _ _ _ Hl) as (_ & _ & _ & [-> | ->]);
      [reflexivity|]. rewrite count_app. apply Nat.add_0_r. }
  destruct (list_tools srv st) as [[tools|e] st1] eqn:Hl.
  - destruct (list_tools_keeps_sleeps_and_calls srv _ _ _ Hl) as (Hsl & Hcl).
    destruct (existsb (fun tool => String.eqb (name tool) tool_name) tools) eqn:Hf.
    + destruct (execute_tool_run srv json_loads st st1 tools tool_name arguments
                  3 1 Hl Hf ltac:(lia)) as (n & o' & Hn & Hrun' & _).
      change (Z.of_nat 3) with 3%Z in Hrun'. rewrite Hrun' in Hrun.
      injection Hrun as _ <-.
      exists (map (fun k => (1 * inject_Z (2 ^ (Z.of_nat k - 1)))%Q) (seq 1 n)).
      split; [apply (sleeps_after_run srv _ _ tools), Hl|]. split.
      * clear - Hn. destruct n as [|[|[|[|n]]]]; try lia; discriminate.
      * split.
        -- rewrite count_calls_add, count_app, count_calls_expected_retries, Hcl.
           change (count is_call_tool [EvCallTool tool_name arguments]) with 1%nat.
           clear - Hn. lia.
        -- cbn [world trace add_events]. rewrite count_app.
           rewrite (count_other_expected_retries is_connect)
             by (intros; reflexivity).
           rewrite Nat.add_0_r. apply (Hlist tools st1 eq_refl).
    + rewrite (execute_tool_not_found srv json_loads st st1 tools tool_name
                 arguments 3 1 Hl Hf) in Hrun.
      injection Hrun as _ <-. apply Hnil; [assumption | assumption |].
      apply (Hlist tools st1 eq_refl).
  - unfold execute_tool, bind, get_self in Hrun.
    destruct (session (self st)) as [s|] eqn:Hses.
    + rewrite Hl in Hrun. injection Hrun as _ <-.
      destruct (_tools_cache (self st)) as [cache|] eqn:Hc.
      * rewrite (list_tools_cached srv st s cache Hses Hc) in Hl. discriminate Hl.
      * rewrite (list_tools_fetch srv st s Hses Hc) in Hl.
        destruct (list_tools_response srv _); [discriminate Hl|].
        injection Hl as _ <-. apply Hnil; simpl.
        -- rewrite sleeps_app. simpl. apply app_nil_r.
        -- rewrite count_app. apply Nat.add_0_r.
        -- rewrite count_app. apply Nat.add_0_r.
    + unfold raise in Hrun. injection Hrun as _ <-. apply Hnil; reflexivity.
Qed.

(** X20. Whatever the server does, one call of the direct executor
    makes one connection attempt, at most four tool calls, and sleeps at
    most [1 + 2 + 4 = 7] in total between them. *)
Theorem direct_executor_is_bounded (function_name : string)
    (arguments : pyvalue) (w : World) :
  let w' := snd (execute_mcp_tool_async srv json_loads json_dumps py_str
                   mcp_server_url function_name arguments w) in
  count is_connect (trace w') = (count is_connect (trace w) + 1)%nat
  /\ (count is_call_tool (trace w') <= count is_call_tool (trace w) + 4)%nat
  /\ exists slept,
       sleeps (trace w') = (sleeps (trace w) ++ slept)%list
       /\ (total slept <= 7)%Q.
Proof.
  intros w'. subst w'.
  set (st0 := {| world := w; self := ServerConnection_init mcp_server_url |}).
  assert (Hconnect : exists b st1,
             connect srv st0 = (Return b, st1)
             /\ world st1 = world (add_events [EvConnect] st0)).
  { destruct (handshake_ok (handshake srv (count is_connect (trace (world st0)))))
      eqn:Hh.
    - eexists _, _. split; [apply (connect_ok srv st0 Hh) | reflexivity].
    - eexists _, _. split; [apply (connect_failed srv st0 eq_refl eq_refl eq_refl Hh) | reflexivity]. }
  destruct Hconnect as (b & st1 & Hc & Hw).
  destruct (execute_tool srv json_loads function_name
              (direct_args json_loads arguments) 3 1 st1) as [o st2] eqn:Hrun.
  destruct (execute_tool_default_bound _ _ _ _ _ Hrun)
    as (slept & Hsl & Htot & Hcalls & Hconn).
  assert (Hfinal :
            snd (execute_mcp_tool_async srv json_loads json_dumps py_str
                   mcp_server_url function_name arguments w) = world st2).
  { unfold execute_mcp_tool_async, bind at 1, execute_mcp_tool_directly,
      with_new_connection.
    fold st0. unfold bind at 1. rewrite Hc. unfold bind at 1. rewrite Hrun.
    destruct o as [r|e]; [|reflexivity].
    unfold bind. destruct (cleanup_returns st2) as (c & -> & _).
    unfold ret. simpl. destruct (isinstance_dict r); reflexivity. }
  rewrite Hfinal, Hconn, Hw.
  assert (Hs1 : sleeps (trace (world st1)) = sleeps (trace w)).
  { rewrite Hw. simpl. rewrite sleeps_app. apply app_nil_r. }
  assert (Hc1 : count is_call_tool (trace (world st1))
                = count is_call_tool (trace w)).
  { rewrite Hw. simpl. rewrite count_app. apply Nat.add_0_r. }
  rewrite Hs1 in Hsl. rewrite Hc1 in Hcalls.
  split; [simpl; rewrite count_app; reflexivity|].
  split; [exact Hcalls|].
  exists slept. split; [exact Hsl | exact Htot].
Qed.

End BoundExtras.
